(** * AlgoInvest&Trade: the three knapsack solvers and the comparator

    A shallow embedding of [bruteforce.py], [optimized.py],
    [sac_a_dos_dynamique.py] and [analyse_datasets.py].

    Conventions of the embedding.
    - Python numbers that hold euros or percentages are exact rationals
      ([Q], compared with [Qeq], [Qle], [Qlt]); binary floating point is
      not modelled.  [int(x)] truncates towards zero.
    - The integers of the dynamic-programming table are [Z].
    - An asset is a Python dict with a fixed set of keys, hence a record.
      The keys [benefice_euros] and [ratio] are produced by some of the
      loaders only (and [ratio] is added in place by one solver), so they
      are optional fields; reading an absent key is a [KeyError].
    - Code that can raise runs in the error monad [resultat].  List
      indexing is checked: an index outside [0 .. len-1] is an
      [IndexError].  A negative index, which Python would resolve from the
      end of the list, is reported as out of range as well, so a run that
      ends in [Ok] made only reads and writes that lie inside the lists.
    - Timing is left out, and so is the text that is printed: a display
      function returns the numbers it prints.  A CSV file is the list of
      the rows that [csv.DictReader] yields; the built-ins [float] and
      [str.strip] are parameters of the loaders. *)

From Stdlib Require Import ZArith QArith Qabs Lia Lqa Ascii SpecFloat.
From stdpp Require Import base option list sorting strings gmap.

(** ** Exceptions *)

Inductive erreur : Type :=
  | KeyError (cle : string)
  | IndexError
  | ZeroDivisionError.

Inductive resultat (A : Type) : Type :=
  | Ok (a : A)
  | Err (e : erreur).
Arguments Ok {A} a.
Arguments Err {A} e.

#[global] Instance resultat_ret : MRet resultat := fun A a => Ok a.
#[global] Instance resultat_bind : MBind resultat := fun A B f m =>
  match m with
  | Ok a => f a
  | Err e => Err e
  end.

(** ** Python built-ins *)

Module Py.

(** [int(x)] on a number: truncation towards zero. *)
Definition int (x : Q) : Z := Z.quot (Qnum x) (Z.pos (Qden x)).

(** [a < b] and [a <= b] on numbers. *)
Definition ltb (a b : Q) : bool :=
  match Qcompare a b with Lt => true | _ => false end.
Definition leb (a b : Q) : bool :=
  match Qcompare a b with Gt => false | _ => true end.

(** [a / b]. *)
Definition div (a b : Q) : resultat Q :=
  if Qeq_bool b 0 then Err ZeroDivisionError else Ok (a / b)%Q.

(** [range(n)] as the list of its values. *)
Definition range (n : Z) : list Z := Z.of_nat <$> seq 0 (Z.to_nat n).

(** [d[k]] for a key that may be absent. *)
Definition cle {A} (k : string) (v : option A) : resultat A :=
  match v with
  | Some a => Ok a
  | None => Err (KeyError k)
  end.

(** [l[i]] for a Python integer [i]. *)
Definition get {A} (l : list A) (i : Z) : resultat A :=
  if (i <? 0)%Z then Err IndexError
  else match l !! Z.to_nat i with
       | Some a => Ok a
       | None => Err IndexError
       end.

(** [l[i] = v]. *)
Definition set {A} (l : list A) (i : Z) (v : A) : resultat (list A) :=
  if (i <? 0)%Z then Err IndexError
  else if decide (Z.to_nat i < length l)%nat then Ok (<[Z.to_nat i := v]> l)
       else Err IndexError.

(** [for x in xs: body], threading the state [s]. *)
Fixpoint for_ {A S} (xs : list A) (body : S → A → resultat S) (s : S)
  : resultat S :=
  match xs with
  | [] => Ok s
  | x :: xs' => s' ← body s x; for_ xs' body s'
  end.

(** [[f(x) for x in xs]]. *)
Fixpoint map_ {A B} (f : A → resultat B) (xs : list A) : resultat (list B) :=
  match xs with
  | [] => Ok []
  | x :: xs' => y ← f x; ys ← map_ f xs'; Ok (y :: ys)
  end.

(** [itertools.combinations(l, k)]: the [k]-element selections of [l],
    positions increasing, in lexicographic order of the positions. *)
Fixpoint combinations {A} (l : list A) (k : nat) : list (list A) :=
  match k, l with
  | O, _ => [[]]
  | S _, [] => []
  | S k', x :: l' => (cons x <$> combinations l' k') ++ combinations l' k
  end.

(** [sorted(l, key=key, reverse=True)]: the keys are computed first,
    one call per element; the result has decreasing keys, and the sort
    is stable, so elements with equal keys keep their relative order. *)
Fixpoint inserer {A} (x : Q * A) (l : list (Q * A)) : list (Q * A) :=
  match l with
  | [] => [x]
  | y :: l' => if ltb (fst x) (fst y) then y :: inserer x l'
               else x :: l
  end.
Definition sorted_reverse {A} (key : A → resultat Q) (l : list A)
  : resultat (list A) :=
  cles ← map_ key l;
  Ok (snd <$> foldr inserer [] (zip cles l)).

(** [sum(f(a) for a in l)]. *)
Definition sum {A} (f : A → Q) (l : list A) : Q :=
  fold_left (fun acc a => (acc + f a)%Q) l 0%Q.

End Py.

(** ** Data model *)

(** An asset: [{"nom": .., "cout": .., "benefice_pct": ..}], with
    ["benefice_euros"] and ["ratio"] when the loader computed them. *)
Record action : Type := Action {
  nom : string;
  cout : Q;
  benefice_pct : Q;
  benefice_euros : option Q;
  ratio : option Q
}.

(** A solution: [{"actions": .., "cout_total": .., "benefice_total": ..}]. *)
Record solution (A : Type) : Type := Solution {
  actions : list A;
  cout_total : Q;
  benefice_total : Q
}.
Arguments Solution {A} _ _ _.
Arguments actions {A} _.
Arguments cout_total {A} _.
Arguments benefice_total {A} _.

(** ** bruteforce.py *)

Module Bruteforce.

Definition calculer_benefice_total (actions_selectionnees : list action)
  : Q * Q :=
  fold_left
    (fun '(cout_acc, benefice_total_euros) a =>
       let benefice_en_euros := (cout a * benefice_pct a / 100)%Q in
       ((cout_acc + cout a)%Q, (benefice_total_euros + benefice_en_euros)%Q))
    actions_selectionnees (0%Q, 0%Q).

(** The two variables the nested loops update. *)
Record etat : Type := Etat {
  meilleure_solution : solution action;
  nombre_total_combinaisons : nat
}.

(** Body of the inner loop, for one combination. *)
Definition examiner (budget_max : Q) (s : etat) (combinaison : list action)
  : etat :=
  let nombre := S (nombre_total_combinaisons s) in
  let '(cout_comb, benefice_comb) := calculer_benefice_total combinaison in
  if Py.leb cout_comb budget_max then
    if Py.ltb (benefice_total (meilleure_solution s)) benefice_comb then
      Etat (Solution combinaison cout_comb benefice_comb) nombre
    else Etat (meilleure_solution s) nombre
  else Etat (meilleure_solution s) nombre.

(** The combinations in the order the loops visit them: sizes 1 to
    [len(actions)], each size in the order of [combinations]. *)
Definition enumeration (actions : list action) : list (list action) :=
  taille ← seq 1 (length actions); Py.combinations actions taille.

Definition parcourir (actions : list action) (budget_max : Q) : etat :=
  fold_left
    (fun s taille =>
       fold_left (examiner budget_max) (Py.combinations actions taille) s)
    (seq 1 (length actions))
    (Etat (Solution [] 0%Q 0%Q) 0).

Definition trouver_meilleure_combinaison (actions : list action)
    (budget_max : Q) : solution action :=
  meilleure_solution (parcourir actions budget_max).

End Bruteforce.

(** ** optimized.py *)

Module Optimized.

Definition calculer_solution (actions_selectionnees : list action)
  : solution action :=
  let cout_total := Py.sum cout actions_selectionnees in
  let benefice_total :=
    Py.sum (fun a => cout a * benefice_pct a / 100)%Q actions_selectionnees in
  Solution actions_selectionnees cout_total benefice_total.

(** Body of the selection loop; the state is
    [(actions_selectionnees, budget_restant)]. *)
Definition selectionner (s : list action * Q) (a : action)
  : list action * Q :=
  let '(actions_selectionnees, budget_restant) := s in
  if Py.leb (cout a) budget_restant
  then (actions_selectionnees ++ [a], (budget_restant - cout a)%Q)
  else s.

Definition algorithme_glouton (actions : list action) (budget_max : Q)
  : resultat (solution action) :=
  actions_triees ←
    Py.sorted_reverse (fun a => Py.cle "ratio" (ratio a)) actions;
  let '(actions_selectionnees, _) :=
    fold_left selectionner actions_triees ([], budget_max) in
  Ok (calculer_solution actions_selectionnees).

End Optimized.

(** ** sac_a_dos_dynamique.py *)

(** An asset in cents: [{**action, "cout_centimes": ..,
    "benefice_centimes": ..}], a new dict that copies the keys of the
    asset. *)
Record action_centimes : Type := ActionCentimes {
  origine : action;
  cout_centimes : Z;
  benefice_centimes : Z
}.

Module SacADosDynamique.

Definition convertir_actions_en_centimes (actions : list action)
  : resultat (list action_centimes) :=
  Py.for_ actions
    (fun actions_centimes a =>
       let c := Py.int (cout a * 100) in
       be ← Py.cle "benefice_euros" (benefice_euros a);
       Ok (actions_centimes ++ [ActionCentimes a c (Py.int (be * 100))]))
    [].

(** Body of the loop over [b], for row [i] and the asset of that row. *)
Definition remplir_case (i : nat) (cout benefice : Z)
    (table : list (list Z)) (b : Z) : resultat (list (list Z)) :=
  ligne_precedente ← Py.get table (Z.of_nat (i - 1));
  ne_pas_prendre ← Py.get ligne_precedente b;
  prendre ←
    (if (cout <=? b)%Z
     then v ← Py.get ligne_precedente (b - cout); Ok (v + benefice)%Z
     else Ok 0%Z);
  ligne ← Py.get table (Z.of_nat i);
  ligne' ← Py.set ligne b (Z.max ne_pas_prendre prendre);
  Py.set table (Z.of_nat i) ligne'.

(** Body of the loop over [i]. *)
Definition remplir_ligne (actions_centimes : list action_centimes)
    (budget_centimes : Z) (table : list (list Z)) (i : nat)
  : resultat (list (list Z)) :=
  a ← Py.get actions_centimes (Z.of_nat (i - 1));
  Py.for_ (Py.range (budget_centimes + 1))
    (remplir_case i (cout_centimes a) (benefice_centimes a)) table.

Definition creer_table_dynamique (actions_centimes : list action_centimes)
    (budget_centimes : Z) : resultat (list (list Z)) :=
  let n := length actions_centimes in
  let table :=
    replicate (n + 1) (replicate (Z.to_nat (budget_centimes + 1)) 0%Z) in
  Py.for_ (seq 1 n) (remplir_ligne actions_centimes budget_centimes) table.

(** The loop [while i > 0 and b > 0]; [i] decreases at every turn.  The
    result is the state of the loop when it ends: the assets collected
    and the value of [b]. *)
Fixpoint remonter (actions : list action)
    (actions_centimes : list action_centimes) (table : list (list Z))
    (i : nat) (b : Z) (actions_selectionnees : list action)
  : resultat (list action * Z) :=
  match i with
  | O => Ok (actions_selectionnees, b)
  | S i' =>
      if (0 <? b)%Z then
        ligne ← Py.get table (Z.of_nat i);
        v ← Py.get ligne b;
        ligne_precedente ← Py.get table (Z.of_nat i');
        v' ← Py.get ligne_precedente b;
        if decide (v ≠ v') then
          a ← Py.get actions (Z.of_nat i');
          ac ← Py.get actions_centimes (Z.of_nat i');
          remonter actions actions_centimes table i'
            (b - cout_centimes ac) (actions_selectionnees ++ [a])
        else
          remonter actions actions_centimes table i' b actions_selectionnees
      else Ok (actions_selectionnees, b)
  end.

Definition retrouver_actions (actions : list action)
    (actions_centimes : list action_centimes) (table : list (list Z))
    (budget_centimes : Z) : resultat (list action) :=
  let n := length actions_centimes in
  '(actions_selectionnees, _) ←
    remonter actions actions_centimes table n budget_centimes [];
  Ok (reverse actions_selectionnees).

Definition calculer_solution (actions_selectionnees : list action)
  : resultat (solution action) :=
  let cout_total := Py.sum cout actions_selectionnees in
  benefice_total ←
    Py.for_ actions_selectionnees
      (fun acc a =>
         be ← Py.cle "benefice_euros" (benefice_euros a); Ok (acc + be)%Q)
      0%Q;
  Ok (Solution actions_selectionnees cout_total benefice_total).

Definition algorithme_sac_a_dos (actions : list action) (budget_max : Q)
  : resultat (solution action) :=
  let budget_centimes := Py.int (budget_max * 100) in
  actions_centimes ← convertir_actions_en_centimes actions;
  table ← creer_table_dynamique actions_centimes budget_centimes;
  actions_selectionnees ←
    retrouver_actions actions actions_centimes table budget_centimes;
  calculer_solution actions_selectionnees.

End SacADosDynamique.

(** ** analyse_datasets.py *)

Module AnalyseDatasets.

Definition calculer_solution (actions_selectionnees : list action)
  : resultat (solution action) :=
  let cout_total := Py.sum cout actions_selectionnees in
  benefice_total ←
    Py.for_ actions_selectionnees
      (fun acc a =>
         be ← Py.cle "benefice_euros" (benefice_euros a); Ok (acc + be)%Q)
      0%Q;
  Ok (Solution actions_selectionnees cout_total benefice_total).

(** [action["ratio"] = action["benefice_pct"] / action["cout"]]: the
    dict is updated in place. *)
Definition calculer_ratio (a : action) : resultat action :=
  r ← Py.div (benefice_pct a) (cout a);
  Ok (Action (nom a) (cout a) (benefice_pct a) (benefice_euros a) (Some r)).

Definition selectionner (s : list action * Q) (a : action)
  : list action * Q :=
  let '(actions_selectionnees, budget_restant) := s in
  if Py.leb (cout a) budget_restant
  then (actions_selectionnees ++ [a], (budget_restant - cout a)%Q)
  else s.

(** The greedy solver writes to the dicts of the list it is given.  The
    embedding passes that state explicitly: the first component of the
    result is the caller's list as it stands after the call, the second
    the returned solution, whose assets are those same updated dicts. *)
Definition algorithme_glouton (actions : list action) (budget_max : Q)
  : resultat (list action * solution action) :=
  actions ← Py.map_ calculer_ratio actions;
  actions_triees ←
    Py.sorted_reverse (fun a => Py.cle "ratio" (ratio a)) actions;
  let '(actions_selectionnees, _) :=
    fold_left selectionner actions_triees ([], budget_max) in
  sol ← calculer_solution actions_selectionnees;
  Ok (actions, sol).

Definition remplir_case (i : nat) (cout benefice : Z)
    (table : list (list Z)) (b : Z) : resultat (list (list Z)) :=
  ligne_precedente ← Py.get table (Z.of_nat (i - 1));
  ne_pas_prendre ← Py.get ligne_precedente b;
  prendre ←
    (if (cout <=? b)%Z
     then v ← Py.get ligne_precedente (b - cout); Ok (v + benefice)%Z
     else Ok 0%Z);
  ligne ← Py.get table (Z.of_nat i);
  ligne' ← Py.set ligne b (Z.max ne_pas_prendre prendre);
  Py.set table (Z.of_nat i) ligne'.

Fixpoint remonter (actions : list action)
    (actions_centimes : list action_centimes) (table : list (list Z))
    (i : nat) (b : Z) (actions_selectionnees : list action)
  : resultat (list action * Z) :=
  match i with
  | O => Ok (actions_selectionnees, b)
  | S i' =>
      if (0 <? b)%Z then
        ligne ← Py.get table (Z.of_nat i);
        v ← Py.get ligne b;
        ligne_precedente ← Py.get table (Z.of_nat i');
        v' ← Py.get ligne_precedente b;
        if decide (v ≠ v') then
          a ← Py.get actions (Z.of_nat i');
          ac ← Py.get actions_centimes (Z.of_nat i');
          remonter actions actions_centimes table i'
            (b - cout_centimes ac) (actions_selectionnees ++ [a])
        else
          remonter actions actions_centimes table i' b actions_selectionnees
      else Ok (actions_selectionnees, b)
  end.

Definition algorithme_dynamique (actions : list action) (budget_max : Q)
  : resultat (solution action) :=
  let budget_centimes := Py.int (budget_max * 100) in
  actions_centimes ←
    Py.for_ actions
      (fun actions_centimes a =>
         let c := Py.int (cout a * 100) in
         be ← Py.cle "benefice_euros" (benefice_euros a);
         Ok (actions_centimes ++ [ActionCentimes a c (Py.int (be * 100))]))
      [];
  let n := length actions_centimes in
  let table :=
    replicate (n + 1) (replicate (Z.to_nat (budget_centimes + 1)) 0%Z) in
  table ←
    Py.for_ (seq 1 n)
      (fun table i =>
         a ← Py.get actions_centimes (Z.of_nat (i - 1));
         Py.for_ (Py.range (budget_centimes + 1))
           (remplir_case i (cout_centimes a) (benefice_centimes a)) table)
      table;
  '(actions_selectionnees, _) ←
    remonter actions actions_centimes table n budget_centimes [];
  calculer_solution (reverse actions_selectionnees).

(** The verdict that [comparer_solutions] prints. *)
Inductive verdict : Type :=
  | AlgorithmeMeilleur (diff pct : Q)
  | SiennaMeilleure (diff pct : Q)
  | Equivalentes.

(** What [comparer_solutions] computes and prints: the three
    differences, the yields when both costs are positive, the verdict. *)
Record comparaison : Type := Comparaison {
  diff_nombre : Z;
  diff_cout : Q;
  diff_benefice : Q;
  rentabilites : option (Q * Q * Q);
  le_verdict : verdict
}.

Definition comparer_solutions {A B} (algo : solution A) (sienna : solution B)
  : resultat comparaison :=
  let diff_benefice := (benefice_total algo - benefice_total sienna)%Q in
  let diff_cout := (cout_total algo - cout_total sienna)%Q in
  let nb_algo := Z.of_nat (length (actions algo)) in
  let nb_sienna := Z.of_nat (length (actions sienna)) in
  let rent :=
    if Py.ltb 0 (cout_total algo) && Py.ltb 0 (cout_total sienna) then
      let rent_algo := (benefice_total algo / cout_total algo * 100)%Q in
      let rent_sienna :=
        (benefice_total sienna / cout_total sienna * 100)%Q in
      Some (rent_algo, rent_sienna, (rent_algo - rent_sienna)%Q)
    else None in
  v ←
    (if Py.ltb 0.01 diff_benefice then
       q ← Py.div diff_benefice (benefice_total sienna);
       Ok (AlgorithmeMeilleur diff_benefice (q * 100)%Q)
     else if Py.ltb diff_benefice (- 0.01) then
       q ← Py.div (Qabs diff_benefice) (benefice_total sienna);
       Ok (SiennaMeilleure (Qabs diff_benefice) (q * 100)%Q)
     else Ok Equivalentes);
  Ok (Comparaison (nb_algo - nb_sienna)%Z diff_cout diff_benefice rent v).

Definition obtenir_choix_sienna_dataset1 : solution string :=
  Solution ["Share-GRUT"%string] 498.76%Q 196.61%Q.

End AnalyseDatasets.

(** ** Loading, statistics and display

    The functions around the solvers.  A CSV file is the list of the rows
    that [csv.DictReader] yields, each a dict from column name to text.
    Two built-ins that work on text are parameters: [float], which reads
    a number or raises [ValueError], and [str.strip].  Display functions
    return the numbers they format. *)

Record builtins : Type := Builtins {
  float : string → option Q;
  strip : string → string
}.

(** The exceptions of the loaders: those of the solvers, and the
    [ValueError] of [float].  [int] of a binary64 number raises
    [ValueError] on NaN and [OverflowError] on an infinity; an object of
    the wrong kind is a [TypeError]. *)
Inductive exception : Type :=
  | Erreur (e : erreur)
  | ValueError
  | OverflowError
  | TypeError.

Inductive issue (A : Type) : Type :=
  | Retour (a : A)
  | Leve (e : exception).
Arguments Retour {A} a.
Arguments Leve {A} e.

#[global] Instance issue_ret : MRet issue := fun A a => Retour a.
#[global] Instance issue_bind : MBind issue := fun A B f m =>
  match m with
  | Retour a => f a
  | Leve e => Leve e
  end.

Module PyTexte.

(** [ligne[k]] on a row. *)
Definition colonne (k : string) (ligne : gmap string string) : issue string :=
  match ligne !! k with
  | Some v => Retour v
  | None => Leve (Erreur (KeyError k))
  end.

(** [float(s)]. *)
Definition flottant (py : builtins) (s : string) : issue Q :=
  match float py s with
  | Some x => Retour x
  | None => Leve ValueError
  end.

(** [s.replace("%", "")]: every percent sign is removed. *)
Fixpoint sans_pourcent (s : string) : string :=
  match s with
  | EmptyString => EmptyString
  | String c s' =>
      if Ascii.eqb c "%"%char then sans_pourcent s'
      else String c (sans_pourcent s')
  end.

(** A computation of the solvers inside a loader. *)
Definition lever {A} (r : resultat A) : issue A :=
  match r with
  | Ok a => Retour a
  | Err e => Leve (Erreur e)
  end.

(** [for x in xs: body], threading the state [s]. *)
Fixpoint pour {A S} (xs : list A) (body : S → A → issue S) (s : S) : issue S :=
  match xs with
  | [] => Retour s
  | x :: xs' => s' ← body s x; pour xs' body s'
  end.

(** [min(f(a) for a in l)] and [max(f(a) for a in l)] on a list that is
    not empty; the first extremum is kept. *)
Definition min_ {A} (f : A → Q) (a : A) (l : list A) : Q :=
  fold_left (fun m x => if Py.ltb (f x) m then f x else m) l (f a).
Definition max_ {A} (f : A → Q) (a : A) (l : list A) : Q :=
  fold_left (fun m x => if Py.ltb m (f x) then f x else m) l (f a).

End PyTexte.

(** *** bruteforce.py *)

Module BruteforceFichier.

Definition lire_fichier_actions (py : builtins) (lecteur : list (gmap string string))
  : issue (list action) :=
  PyTexte.pour lecteur
    (fun actions ligne =>
       nom ← PyTexte.colonne "Actions #" ligne;
       c ← PyTexte.colonne "Coût par action (en euros)" ligne;
       cout ← PyTexte.flottant py c;
       b ← PyTexte.colonne "Bénéfice (après 2 ans)" ligne;
       benefice_pct ← PyTexte.flottant py (PyTexte.sans_pourcent b);
       Retour (actions ++ [Action nom cout benefice_pct None None]))
    [].

(** What [afficher_resultat] prints: cost, profit and yield of the
    solution, then name, cost, percentage and profit of each asset. *)
Record affichage : Type := Affichage {
  cout_affiche : Q;
  benefice_affiche : Q;
  rentabilite : Q;
  lignes : list (string * Q * Q * Q)
}.

Definition afficher_resultat (sol : solution action) : resultat affichage :=
  q ← Py.div (benefice_total sol) (cout_total sol);
  Ok (Affichage (cout_total sol) (benefice_total sol) (q * 100)%Q
        ((fun a => (nom a, cout a, benefice_pct a,
                    (cout a * benefice_pct a / 100)%Q)) <$> actions sol)).

Definition main (py : builtins) (fichier : list (gmap string string))
  : issue affichage :=
  actions ← lire_fichier_actions py fichier;
  let meilleure_solution :=
    Bruteforce.trouver_meilleure_combinaison actions 500 in
  PyTexte.lever (afficher_resultat meilleure_solution).

End BruteforceFichier.

(** *** optimized.py *)

Module OptimizedFichier.

Definition creer_action_depuis_ligne (py : builtins)
    (ligne : gmap string string) : issue (option action) :=
  nom ← PyTexte.colonne "Actions #" ligne;
  c ← PyTexte.colonne "Coût par action (en euros)" ligne;
  cout ← PyTexte.flottant py c;
  b ← PyTexte.colonne "Bénéfice (après 2 ans)" ligne;
  benefice_pct ← PyTexte.flottant py (PyTexte.sans_pourcent b);
  if Py.leb cout 0 || Py.leb benefice_pct 0 then Retour None
  else
    ratio_rentabilite ← PyTexte.lever (Py.div benefice_pct cout);
    Retour (Some (Action nom cout benefice_pct None (Some ratio_rentabilite))).

Definition lire_fichier_actions (py : builtins) (lecteur : list (gmap string string))
  : issue (list action) :=
  PyTexte.pour lecteur
    (fun actions ligne =>
       action ← creer_action_depuis_ligne py ligne;
       match action with
       | Some a => Retour (actions ++ [a])
       | None => Retour actions
       end)
    [].

(** What [afficher_metriques] and [afficher_tableau_actions] print: the
    yield is printed when the total cost is positive. *)
Record affichage : Type := Affichage {
  cout_affiche : Q;
  benefice_affiche : Q;
  rentabilite : option Q;
  lignes : list (string * Q * Q * Q * Q)
}.

Definition afficher_resultat (sol : solution action) : resultat affichage :=
  let rentabilite :=
    if Py.ltb 0 (cout_total sol)
    then Some (benefice_total sol / cout_total sol * 100)%Q
    else None in
  lignes ←
    Py.map_
      (fun a =>
         let benefice_euros := (cout a * benefice_pct a / 100)%Q in
         r ← Py.cle "ratio" (ratio a);
         Ok (nom a, cout a, benefice_pct a, benefice_euros, r))
      (actions sol);
  Ok (Affichage (cout_total sol) (benefice_total sol) rentabilite lignes).

(** What [afficher_statistiques] prints after the number of assets:
    minimum, maximum and mean of the costs, then of the percentages. *)
Definition afficher_statistiques (actions : list action)
  : resultat (nat * option (Q * Q * Q * (Q * Q * Q))) :=
  match actions with
  | [] => Ok (0, None)
  | a :: reste =>
      let n := inject_Z (Z.of_nat (length actions)) in
      let cout_min := PyTexte.min_ cout a reste in
      let cout_max := PyTexte.max_ cout a reste in
      cout_moyen ← Py.div (Py.sum cout actions) n;
      let benefice_min := PyTexte.min_ benefice_pct a reste in
      let benefice_max := PyTexte.max_ benefice_pct a reste in
      benefice_moyen ← Py.div (Py.sum benefice_pct actions) n;
      Ok (length actions,
          Some (cout_min, cout_max, cout_moyen,
                (benefice_min, benefice_max, benefice_moyen)))
  end.

Definition main (py : builtins) (fichier : list (gmap string string))
  : issue affichage :=
  actions ← lire_fichier_actions py fichier;
  _ ← PyTexte.lever (afficher_statistiques actions);
  solution ← PyTexte.lever (Optimized.algorithme_glouton actions 500);
  PyTexte.lever (afficher_resultat solution).

End OptimizedFichier.

(** *** sac_a_dos_dynamique.py *)

Module SacADosDynamiqueFichier.

Definition creer_action_depuis_ligne (py : builtins)
    (ligne : gmap string string) : issue (option action) :=
  nom ← PyTexte.colonne "Actions #" ligne;
  c ← PyTexte.colonne "Coût par action (en euros)" ligne;
  cout ← PyTexte.flottant py c;
  b ← PyTexte.colonne "Bénéfice (après 2 ans)" ligne;
  benefice_pct ← PyTexte.flottant py (PyTexte.sans_pourcent b);
  if Py.leb cout 0 || Py.leb benefice_pct 0 then Retour None
  else
    let benefice_euros := (cout * benefice_pct / 100)%Q in
    Retour (Some (Action nom cout benefice_pct (Some benefice_euros) None)).

Definition lire_fichier_actions (py : builtins) (lecteur : list (gmap string string))
  : issue (list action) :=
  PyTexte.pour lecteur
    (fun actions ligne =>
       action ← creer_action_depuis_ligne py ligne;
       match action with
       | Some a => Retour (actions ++ [a])
       | None => Retour actions
       end)
    [].

Record affichage : Type := Affichage {
  cout_affiche : Q;
  benefice_affiche : Q;
  rentabilite : option Q;
  lignes : list (string * Q * Q * Q)
}.

Definition afficher_resultat (sol : solution action) : resultat affichage :=
  let rentabilite :=
    if Py.ltb 0 (cout_total sol)
    then Some (benefice_total sol / cout_total sol * 100)%Q
    else None in
  lignes ←
    Py.map_
      (fun a =>
         be ← Py.cle "benefice_euros" (benefice_euros a);
         Ok (nom a, cout a, benefice_pct a, be))
      (actions sol);
  Ok (Affichage (cout_total sol) (benefice_total sol) rentabilite lignes).

Definition main (py : builtins) (fichier : list (gmap string string))
  : issue affichage :=
  actions ← lire_fichier_actions py fichier;
  solution ← PyTexte.lever (SacADosDynamique.algorithme_sac_a_dos actions 500);
  PyTexte.lever (afficher_resultat solution).

End SacADosDynamiqueFichier.

(** *** analyse_datasets.py *)

Module AnalyseDatasetsFichier.

(** [float(ligne.get(k, 0))]: the number 0 when the column is absent. *)
Definition nombre (py : builtins) (k : string) (ligne : gmap string string)
  : option Q :=
  match ligne !! k with
  | Some s => float py s
  | None => Some 0%Q
  end.

(** The body is inside [try: ... except: return None]: [None] stands for
    a rejected row and for any exception. *)
Definition creer_action_depuis_dataset (py : builtins)
    (ligne : gmap string string) : option action :=
  let nom := strip py (default ""%string (ligne !! "name"%string)) in
  prix ← nombre py "price" ligne;
  profit_pct ← nombre py "profit" ligne;
  if String.eqb nom "" || Py.leb prix 0 || Py.leb profit_pct 0 then None
  else
    let benefice_euros := (prix * profit_pct / 100)%Q in
    Some (Action nom prix profit_pct (Some benefice_euros) None).

(** The variables of the reading loop. *)
Record lecture : Type := Lecture {
  actions_valides : list action;
  total_lignes : Z;
  lignes_valides : Z;
  prix_invalides : Z;
  profit_invalides : Z
}.

(** The counting of the reasons of a rejection, inside
    [try: ... except: pass]. *)
Definition compter_rejet (py : builtins) (ligne : gmap string string)
    (s : lecture) : lecture :=
  match nombre py "price" ligne, nombre py "profit" ligne with
  | Some prix, Some profit =>
      let pi := if Py.leb prix 0 then (prix_invalides s + 1)%Z
                else prix_invalides s in
      let fi := if Py.leb profit 0 then (profit_invalides s + 1)%Z
                else profit_invalides s in
      Lecture (actions_valides s) (total_lignes s) (lignes_valides s) pi fi
  | _, _ => s
  end.

Definition lire_ligne (py : builtins) (s : lecture)
    (ligne : gmap string string) : lecture :=
  let s := Lecture (actions_valides s) (total_lignes s + 1)
             (lignes_valides s) (prix_invalides s) (profit_invalides s) in
  match creer_action_depuis_dataset py ligne with
  | None => compter_rejet py ligne s
  | Some action =>
      Lecture (actions_valides s ++ [action]) (total_lignes s)
        (lignes_valides s + 1) (prix_invalides s) (profit_invalides s)
  end.

(** The dict that [lire_dataset] returns with the assets. *)
Record compteur : Type := Compteur {
  total : Z;
  valides : Z;
  rejetees : Z
}.

Definition lire_dataset (py : builtins) (lecteur : list (gmap string string))
  : resultat (list action * compteur) :=
  let s := fold_left (lire_ligne py) lecteur (Lecture [] 0 0 0 0) in
  let lignes_rejetees := (total_lignes s - lignes_valides s)%Z in
  _ ← Py.div (inject_Z (lignes_valides s)) (inject_Z (total_lignes s));
  _ ← Py.div (inject_Z lignes_rejetees) (inject_Z (total_lignes s));
  Ok (actions_valides s,
      Compteur (total_lignes s) (lignes_valides s) lignes_rejetees).

Definition obtenir_choix_sienna_dataset2 : solution string :=
  Solution
    ["Share-ECAQ"; "Share-IXCI"; "Share-FWBE"; "Share-ZOFA"; "Share-PLLK";
     "Share-YFVZ"; "Share-ANFX"; "Share-PATS"; "Share-NDKR"; "Share-ALIY";
     "Share-JWGF"; "Share-JGTW"; "Share-FAPS"; "Share-VCAX"; "Share-LFXB";
     "Share-DWSK"; "Share-XQII"; "Share-ROOM"]%string
    489.24%Q 193.78%Q.

(** What [afficher_solution] prints: number of assets, cost, profit, and
    the yield when the cost is positive. *)
Definition afficher_solution {A} (sol : solution A) : nat * Q * Q * option Q :=
  (length (actions sol), cout_total sol, benefice_total sol,
   if Py.ltb 0 (cout_total sol)
   then Some (benefice_total sol / cout_total sol * 100)%Q
   else None).

(** [analyser_dataset] prints and returns nothing; the embedding returns
    what it computed: [None] when no row is valid, else the solution of
    the chosen solver and its comparison with Sienna's choice. *)
Definition analyser_dataset {B} (py : builtins)
    (fichier : list (gmap string string)) (choix_sienna : solution B)
    (algo : string) : resultat (option (solution action * AnalyseDatasets.comparaison)) :=
  '(actions, stats) ← lire_dataset py fichier;
  if Nat.eqb (length actions) 0 then Ok None
  else
    solution ←
      (if String.eqb algo "glouton"
       then '(_, sol) ← AnalyseDatasets.algorithme_glouton actions 500; Ok sol
       else AnalyseDatasets.algorithme_dynamique actions 500);
    let _ := afficher_solution solution in
    let _ := afficher_solution choix_sienna in
    c ← AnalyseDatasets.comparer_solutions solution choix_sienna;
    Ok (Some (solution, c)).

(** [main]: the answer typed at the prompt chooses the solver, then the
    two datasets are analysed in turn, each against Sienna's choice. *)
Definition main (py : builtins) (reponse : string)
    (fichier1 fichier2 : list (gmap string string))
  : resultat (option (solution action * AnalyseDatasets.comparaison) *
              option (solution action * AnalyseDatasets.comparaison)) :=
  let choix := strip py reponse in
  let algo := if String.eqb choix "2" then "dynamique"%string
              else "glouton"%string in
  r1 ← analyser_dataset py fichier1
         AnalyseDatasets.obtenir_choix_sienna_dataset1 algo;
  r2 ← analyser_dataset py fichier2 obtenir_choix_sienna_dataset2 algo;
  Ok (r1, r2).

End AnalyseDatasetsFichier.

(** ** Notions used by the statements *)

(** The validity invariant of the data model: positive cost and positive
    profit percentage. *)
Definition valide (a : action) : bool :=
  Py.ltb 0 (cout a) && Py.ltb 0 (benefice_pct a).

(** An asset as [creer_action_depuis_ligne] of [sac_a_dos_dynamique.py]
    and [creer_action_depuis_dataset] build it: valid, and carrying
    [benefice_euros = cout * benefice_pct / 100]. *)
Definition chargee (a : action) : bool :=
  valide a &&
  match benefice_euros a with
  | Some be => Qeq_bool be (cout a * benefice_pct a / 100)
  | None => false
  end.

(** An asset as [creer_action_depuis_ligne] of [optimized.py] builds it:
    valid, and carrying [ratio = benefice_pct / cout]. *)
Definition classee (a : action) : bool :=
  valide a &&
  match ratio a with
  | Some r => Qeq_bool r (benefice_pct a / cout a)
  | None => false
  end.

(** Cost and profit of a selection, as [calculer_benefice_total]
    evaluates them, and feasibility for a budget. *)
Definition cout_de (c : list action) : Q :=
  fst (Bruteforce.calculer_benefice_total c).
Definition benefice_de (c : list action) : Q :=
  snd (Bruteforce.calculer_benefice_total c).
Definition faisable (budget_max : Q) (c : list action) : Prop :=
  (cout_de c <= budget_max)%Q.

(** A solution whose totals are those of its assets. *)
Definition evaluee (r : solution action) : Prop :=
  r = Solution (actions r) (cout_de (actions r)) (benefice_de (actions r)).

(** The solution with no asset. *)
Definition solution_vide : solution action := Solution [] 0%Q 0%Q.

(** *** The table of the dynamic program, row by row *)

(** [table[i][b]] from row [i-1], as the loop body computes it. *)
Definition case_suivante (prec : list Z) (cout benefice b : Z) : Z :=
  Z.max (prec !!! Z.to_nat b)
        (if (cout <=? b)%Z then prec !!! Z.to_nat (b - cout) + benefice
         else 0)%Z.

Definition ligne_suivante (budget_centimes : Z) (prec : list Z)
    (a : action_centimes) : list Z :=
  case_suivante prec (cout_centimes a) (benefice_centimes a)
    <$> Py.range (budget_centimes + 1).

Fixpoint ligne (acs : list action_centimes) (budget_centimes : Z) (i : nat)
  : list Z :=
  match i with
  | O => replicate (Z.to_nat (budget_centimes + 1)) 0%Z
  | S i' =>
      match acs !! i' with
      | Some a => ligne_suivante budget_centimes (ligne acs budget_centimes i') a
      | None => replicate (Z.to_nat (budget_centimes + 1)) 0%Z
      end
  end.

Definition table_de (acs : list action_centimes) (budget_centimes : Z)
  : list (list Z) :=
  ligne acs budget_centimes <$> seq 0 (length acs + 1).

(** The table after the rows [1 .. j] have been filled: they hold the
    rows of [table_de], the rows below are still zero. *)
Definition remplie (acs : list action_centimes) (budget_centimes : Z)
    (j : nat) (T : list (list Z)) : Prop :=
  length T = length acs + 1 ∧
  (∀ i, i ≤ j → T !! i = Some (ligne acs budget_centimes i)) ∧
  (∀ i, j < i ≤ length acs →
        T !! i = Some (replicate (Z.to_nat (budget_centimes + 1)) 0%Z)).

(** *** The recurrence that only excludes an asset that does not fit

    The same table with the infeasible case read as "exclude": when the
    asset costs more than [b], the entry is the one of the row above. *)
Definition case_exclusion (prec : list Z) (cout benefice b : Z) : Z :=
  if (cout <=? b)%Z
  then Z.max (prec !!! Z.to_nat b) (prec !!! Z.to_nat (b - cout) + benefice)
  else prec !!! Z.to_nat b.

Fixpoint ligne_exclusion (acs : list action_centimes) (budget_centimes : Z)
    (i : nat) : list Z :=
  match i with
  | O => replicate (Z.to_nat (budget_centimes + 1)) 0%Z
  | S i' =>
      match acs !! i' with
      | Some a =>
          case_exclusion (ligne_exclusion acs budget_centimes i')
            (cout_centimes a) (benefice_centimes a)
            <$> Py.range (budget_centimes + 1)
      | None => replicate (Z.to_nat (budget_centimes + 1)) 0%Z
      end
  end.

Definition table_exclusion (acs : list action_centimes) (budget_centimes : Z)
  : list (list Z) :=
  ligne_exclusion acs budget_centimes <$> seq 0 (length acs + 1).

(** The asset in cents that [convertir_actions_en_centimes] builds from
    an asset that carries [benefice_euros]. *)
Definition en_centimes (a : action) : action_centimes :=
  ActionCentimes a (Py.int (cout a * 100))
    (Py.int (default 0%Q (benefice_euros a) * 100)).

(** Cost and profit in cents of a selection: the sums that the table of
    the dynamic program works with. *)
Definition cout_cents (s : list action_centimes) : Z :=
  foldr (fun a acc => (cout_centimes a + acc)%Z) 0%Z s.
Definition benefice_cents (s : list action_centimes) : Z :=
  foldr (fun a acc => (benefice_centimes a + acc)%Z) 0%Z s.

(** The profit in euros of an asset: the stored [benefice_euros] (0 stands
    for an absent key), and the value [cout * benefice_pct / 100] that the
    loaders store there and that the other solvers recompute. *)
Definition benefice_stocke (a : action) : Q := default 0%Q (benefice_euros a).
Definition benefice_calcule (a : action) : Q :=
  (cout a * benefice_pct a / 100)%Q.


(** An asset after [action["ratio"] = benefice_pct / cout]. *)
Definition avec_ratio (a : action) : action :=
  Action (nom a) (cout a) (benefice_pct a) (benefice_euros a)
    (Some (benefice_pct a / cout a)%Q).

(** *** What the loaders raise and what the statistics say *)




(** *** Sample assets *)

(** The scenario of the specification: A (100, 10 %), B (200, 20 %),
    C (300, 15 %), with both derived keys. *)
Definition action_A : action := Action "A" 100 10 (Some 10%Q) (Some 0.1%Q).
Definition action_B : action := Action "B" 200 20 (Some 40%Q) (Some 0.1%Q).
Definition action_C : action := Action "C" 300 15 (Some 45%Q) (Some 0.05%Q).

(** An asset worth half a cent of profit: cost 1, 0.5 %. *)
Definition action_demi_centime : action :=
  Action "D" 1 0.5 (Some 0.005%Q) (Some 0.5%Q).

(** The same asset as [creer_action_depuis_dataset] builds it, without the
    key [ratio]. *)
Definition action_sans_ratio : action :=
  Action "D" 1 0.5 (Some 0.005%Q) None.

(** An asset whose cost is not a whole number of cents: cost 1.005, 10 %. *)
Definition action_fraction : action :=
  Action "E" 1.005 10 (Some 0.1005%Q) (Some (10 / 1.005)%Q).

(** *** Sample files *)

(** A reading of decimal numerals ([12], [0.5], [-3.25]) for [float], and
    the removal of the spaces at both ends for [strip]: enough of the two
    built-ins to run the loaders on the sample rows. *)
Definition chiffre (c : ascii) : option Z :=
  let n := (Z.of_N (N_of_ascii c) - 48)%Z in
  if (0 <=? n)%Z && (n <=? 9)%Z then Some n else None.

Fixpoint lire_decimal (s : string) (apres_point vu : bool) (num : Z)
    (den : positive) : option Q :=
  match s with
  | EmptyString => if vu then Some (num # den) else None
  | String c s' =>
      if Ascii.eqb c "."%char then
        if apres_point then None else lire_decimal s' true vu num den
      else
        match chiffre c with
        | Some d =>
            lire_decimal s' apres_point true (10 * num + d)%Z
              (if apres_point then (10 * den)%positive else den)
        | None => None
        end
  end.

Definition float_decimal (s : string) : option Q :=
  match s with
  | String c s' =>
      if Ascii.eqb c "-"%char
      then Qopp <$> lire_decimal s' false false 0 1
      else lire_decimal s false false 0 1
  | EmptyString => None
  end.

Fixpoint sans_espaces_gauche (s : string) : string :=
  match s with
  | String c s' => if Ascii.eqb c " "%char then sans_espaces_gauche s' else s
  | EmptyString => EmptyString
  end.

Definition strip_espaces (s : string) : string :=
  String.rev (sans_espaces_gauche (String.rev (sans_espaces_gauche s))).

Definition python_exemple : builtins := Builtins float_decimal strip_espaces.

(** A row of [data/actions.csv] and a row of a dataset. *)
Definition ligne_actions (nom cout benefice : string) : gmap string string :=
  <["Actions #"%string := nom]>
    (<["Coût par action (en euros)"%string := cout]>
       (<["Bénéfice (après 2 ans)"%string := benefice]> ∅)).



(** A file whose assets all cost more than the budget of 500. *)
Definition fichier_trop_cher : list (gmap string string) :=
  [ligne_actions "Action-1" "600" "5%"; ligne_actions "Action-2" "501" "10%"].


(** * Proofs *)

(** ** Facts about the built-ins *)

Section Builtins.

Lemma ltb_spec (a b : Q) : Py.ltb a b = true ↔ (a < b)%Q.
Proof.
  unfold Py.ltb. rewrite Qlt_alt. destruct (a ?= b)%Q; intuition congruence.
Qed.

Lemma leb_spec (a b : Q) : Py.leb a b = true ↔ (a <= b)%Q.
Proof.
  unfold Py.leb. rewrite Qle_alt. destruct (a ?= b)%Q; intuition congruence.
Qed.

Lemma ltb_false (a b : Q) : Py.ltb a b = false ↔ (b <= a)%Q.
Proof.
  rewrite <- not_true_iff_false, ltb_spec. split; [apply Qnot_lt_le | apply Qle_not_lt].
Qed.

Lemma leb_false (a b : Q) : Py.leb a b = false ↔ (b < a)%Q.
Proof.
  rewrite <- not_true_iff_false, leb_spec. split; [apply Qnot_le_lt | apply Qlt_not_le].
Qed.

Lemma sum_snoc {A} (f : A → Q) (l : list A) (a : A) :
  Py.sum f (l ++ [a]) = (Py.sum f l + f a)%Q.
Proof. unfold Py.sum. by rewrite fold_left_app. Qed.

End Builtins.

Section Combinations.
Context {A : Type}.
Implicit Types (l s c : list A) (k : nat).

Lemma combinations_sublist l k c :
  c ∈ Py.combinations l k → c `sublist_of` l ∧ length c = k.
Proof.
  revert k c. induction l as [|x l IH]; intros [|k] c; simpl.
  - intros ->%list_elem_of_singleton. split; [constructor | done].
  - by intros ?%elem_of_nil.
  - intros ->%list_elem_of_singleton. split; [apply sublist_nil_l | done].
  - rewrite elem_of_app, list_elem_of_fmap. intros [(c' & -> & Hc') | Hc].
    + destruct (IH _ _ Hc') as [? ?]. split; [by constructor | simpl; lia].
    + destruct (IH _ _ Hc) as [? ?]. split; [by constructor | done].
Qed.

Lemma sublist_combinations s l :
  s `sublist_of` l → s ∈ Py.combinations l (length s).
Proof.
  induction 1 as [|x s l _ IH|x s l Hs IH]; simpl.
  - apply list_elem_of_singleton; done.
  - apply elem_of_app. left. apply list_elem_of_fmap. eauto.
  - destruct s as [|y s]; simpl in *.
    + apply list_elem_of_singleton; done.
    + apply elem_of_app. by right.
Qed.

Lemma sublist_Forall (P : A → Prop) (s k : list A) :
  s `sublist_of` k → Forall P k → Forall P s.
Proof.
  induction 1 as [|x s' k' _ IH|x s' k' _ IH]; intros HP; [done| |].
  - apply Forall_cons in HP as [? ?]. constructor; auto.
  - apply Forall_cons in HP as [? ?]. auto.
Qed.


End Combinations.

Section Exhaustive.
Import Bruteforce.
Variable budget_max : Q.

Lemma evaluee_benefice (r : solution action) :
  evaluee r → benefice_total r = benefice_de (actions r).
Proof. destruct r; unfold evaluee; simpl. by intros [= -> ->]. Qed.

Lemma evaluee_cout (r : solution action) :
  evaluee r → cout_total r = cout_de (actions r).
Proof. destruct r; unfold evaluee; simpl. by intros [= -> ->]. Qed.

Lemma examiner_cases (s : etat) (c : list action) :
  let s' := examiner budget_max s c in
  (faisable budget_max c ∧ (benefice_total (meilleure_solution s) < benefice_de c)%Q ∧
     meilleure_solution s' = Solution c (cout_de c) (benefice_de c))
  ∨ ((faisable budget_max c → (benefice_de c <= benefice_total (meilleure_solution s))%Q) ∧
     meilleure_solution s' = meilleure_solution s).
Proof.
  unfold examiner, faisable, cout_de, benefice_de.
  destruct (calculer_benefice_total c) as [cc bc]; simpl.
  destruct (Py.leb cc budget_max) eqn:Hle.
  - destruct (Py.ltb _ bc) eqn:Hlt; simpl.
    + left. by rewrite leb_spec in Hle; rewrite ltb_spec in Hlt.
    + right. by rewrite ltb_false in Hlt.
  - right. rewrite leb_false in Hle. split; [|done].
    intros ?. exfalso. eapply Qlt_not_le; eauto.
Qed.

Lemma fold_examiner (cs : list (list action)) (s : etat) :
  let r := meilleure_solution (fold_left (examiner budget_max) cs s) in
  (r = meilleure_solution s ∧
     ∀ c, c ∈ cs → faisable budget_max c → (benefice_de c <= benefice_total r)%Q)
  ∨ (∃ pre post, cs = pre ++ actions r :: post ∧ evaluee r ∧
       faisable budget_max (actions r) ∧
       (benefice_total (meilleure_solution s) < benefice_total r)%Q ∧
       (∀ c, c ∈ pre → faisable budget_max c → (benefice_de c < benefice_total r)%Q) ∧
       (∀ c, c ∈ post → faisable budget_max c → (benefice_de c <= benefice_total r)%Q)).
Proof.
  revert s. induction cs as [|c cs IH]; intros s r.
  - left. split; [done|]. by intros c ?%elem_of_nil.
  - subst r. simpl.
    destruct (examiner_cases s c) as [(Hf & Hlt & Hs') | (Hle & Hs')];
      destruct (IH (examiner budget_max s c))
        as [(Hr & Hall) | (pre & post & Hcs & Hev & Hfr & Hbest & Hpre & Hpost)].
    + right. exists [], cs. rewrite Hr, Hs'. simpl.
      rewrite Hr, Hs' in Hall. simpl in Hall.
      repeat split; try done. by intros ? ?%elem_of_nil.
    + right. exists (c :: pre), post. rewrite Hs' in Hbest. simpl in Hbest.
      repeat split; try done.
      * by rewrite Hcs at 1.
      * eapply Qlt_trans; eauto.
      * intros c' [->|?]%elem_of_cons ?; [done | by apply Hpre].
    + left. rewrite Hr, Hs'. rewrite Hr, Hs' in Hall. split; [done|].
      intros c' [->|?]%elem_of_cons ?; [by apply Hle | by apply Hall].
    + right. exists (c :: pre), post. rewrite Hs' in Hbest.
      repeat split; try done.
      * by rewrite Hcs at 1.
      * intros c' [->|?]%elem_of_cons ?; [|by apply Hpre].
        eapply Qle_lt_trans; [by apply Hle | done].
Qed.

Lemma parcourir_fold (l : list action) :
  parcourir l budget_max =
  fold_left (examiner budget_max) (enumeration l) (Etat (Solution [] 0%Q 0%Q) 0).
Proof.
  unfold parcourir, enumeration.
  generalize (Etat (Solution [] 0%Q 0%Q) 0). generalize (seq 1 (length l)).
  intros ts. induction ts as [|t ts IH]; intros s; simpl; [done|].
  by rewrite fold_left_app, IH.
Qed.

Lemma elem_of_enumeration (l c : list action) :
  c ∈ enumeration l ↔ c `sublist_of` l ∧ c ≠ [].
Proof.
  unfold enumeration. rewrite list_elem_of_bind. split.
  - intros (k & Hc & Hk). apply combinations_sublist in Hc as [? <-].
    split; [done|]. apply elem_of_seq in Hk. intros ->. simpl in Hk. lia.
  - intros [Hs Hne]. exists (length c). split; [by apply sublist_combinations|].
    apply elem_of_seq. apply sublist_length in Hs.
    destruct c; [done | simpl in *; lia].
Qed.

(** What the exhaustive solver returns, whatever the assets. *)
Lemma trouver_meilleure_combinaison_spec (l : list action) :
  (0 <= budget_max)%Q →
  let r := trouver_meilleure_combinaison l budget_max in
  actions r `sublist_of` l ∧ evaluee r ∧ faisable budget_max (actions r) ∧
  (∀ s, s `sublist_of` l → faisable budget_max s → (benefice_de s <= benefice_total r)%Q) ∧
  ∃ pre post, [] :: enumeration l = pre ++ actions r :: post ∧
    ∀ c, c ∈ pre → faisable budget_max c → (benefice_de c < benefice_total r)%Q.
Proof.
  intros Hb r. subst r. unfold trouver_meilleure_combinaison.
  rewrite parcourir_fold.
  destruct (fold_examiner (enumeration l) (Etat (Solution [] 0%Q 0%Q) 0))
    as [(Hr & Hall) | (pre & post & Hcs & Hev & Hfr & Hbest & Hpre & Hpost)];
    simpl in *.
  - rewrite Hr in *. simpl in *. split; [apply sublist_nil_l|].
    split; [done|]. split; [done|]. split.
    + intros s Hs Hf. destruct s as [|a s]; [by compute|].
      apply Hall; [|done]. by apply elem_of_enumeration.
    + exists [], (enumeration l). split; [done|]. by intros ? ?%elem_of_nil.
  - set (r := meilleure_solution _) in *.
    assert (Hin : actions r ∈ enumeration l).
    { rewrite Hcs. apply elem_of_app. right. by left. }
    apply elem_of_enumeration in Hin as [Hsub Hne].
    split; [done|]. split; [done|]. split; [done|]. split.
    + intros s Hs Hf. destruct s as [|a s].
      { apply Qlt_le_weak. exact Hbest. }
      assert (Hin : a :: s ∈ enumeration l) by by apply elem_of_enumeration.
      rewrite Hcs in Hin. apply elem_of_app in Hin as [?|[->|?]%elem_of_cons].
      * apply Qlt_le_weak. by apply Hpre.
      * rewrite (evaluee_benefice _ Hev). apply Qle_refl.
      * by apply Hpost.
    + exists ([] :: pre), post. split; [by rewrite Hcs|].
      intros c [->|?]%elem_of_cons ?; [exact Hbest | by apply Hpre].
Qed.

End Exhaustive.

(** ** Checked indexing *)

Section Indexing.
Context {A : Type}.

Lemma get_ok (l : list A) (i : nat) (a : A) :
  l !! i = Some a → Py.get l (Z.of_nat i) = Ok a.
Proof.
  intros H. unfold Py.get.
  destruct (Z.ltb_spec (Z.of_nat i) 0); [lia|].
  by rewrite Nat2Z.id, H.
Qed.

Lemma get_ok_Z (l : list A) (b : Z) (a : A) :
  (0 ≤ b)%Z → l !! Z.to_nat b = Some a → Py.get l b = Ok a.
Proof.
  intros Hb H. unfold Py.get.
  destruct (Z.ltb_spec b 0); [lia|]. by rewrite H.
Qed.

Lemma get_total `{!Inhabited A} (l : list A) (b : Z) :
  (0 ≤ b < Z.of_nat (length l))%Z → Py.get l b = Ok (l !!! Z.to_nat b).
Proof.
  intros Hb. apply get_ok_Z; [lia|]. apply list_lookup_lookup_total_lt. lia.
Qed.

Lemma set_ok (l : list A) (i : nat) (v : A) :
  i < length l → Py.set l (Z.of_nat i) v = Ok (<[i := v]> l).
Proof.
  intros H. unfold Py.set.
  destruct (Z.ltb_spec (Z.of_nat i) 0); [lia|].
  rewrite Nat2Z.id. by rewrite decide_True.
Qed.

End Indexing.

Section Table.
Variable acs : list action_centimes.
Variable B : Z.
Hypothesis couts_positifs : Forall (fun a => (0 ≤ cout_centimes a)%Z) acs.

Abbreviation W := (Z.to_nat (B + 1)).
Abbreviation n := (length acs).

Lemma length_range (m : Z) : length (Py.range m) = Z.to_nat m.
Proof. unfold Py.range. by rewrite length_fmap, length_seq. Qed.

Lemma length_ligne (i : nat) : length (ligne acs B i) = W.
Proof.
  destruct i as [|i]; simpl; [by rewrite length_replicate|].
  destruct (acs !! i); [|by rewrite length_replicate].
  unfold ligne_suivante. by rewrite length_fmap, length_range.
Qed.

(** One turn of the loop over [b]. *)
Lemma remplir_case_ok (i k : nat) (c v : Z) (T : list (list Z))
    (prec row : list Z) :
  (0 ≤ c)%Z → T !! i = Some prec → length prec = W →
  T !! S i = Some row → length row = W → k < W →
  SacADosDynamique.remplir_case (S i) c v T (Z.of_nat k) =
    Ok (<[S i := <[k := case_suivante prec c v (Z.of_nat k)]> row]> T).
Proof.
  intros Hc Hprec Hlp Hrow Hlr Hk. unfold SacADosDynamique.remplir_case.
  replace (S i - 1) with i by lia.
  rewrite (get_ok _ _ _ Hprec). simpl.
  rewrite (get_total prec (Z.of_nat k)) by lia. simpl.
  unfold case_suivante. rewrite Nat2Z.id.
  destruct (Z.leb_spec c (Z.of_nat k)).
  - rewrite (get_total prec (Z.of_nat k - c)) by lia. simpl.
    rewrite (get_ok _ _ _ Hrow). simpl.
    rewrite set_ok by lia. simpl.
    apply set_ok. by eapply lookup_lt_Some.
  - simpl. rewrite (get_ok _ _ _ Hrow). simpl.
    rewrite set_ok by lia. simpl.
    apply set_ok. by eapply lookup_lt_Some.
Qed.

(** The loop over [b] from position [k] on. *)
Lemma boucle_b_ok (i : nat) (c v : Z) (prec : list Z) (m k : nat)
    (T : list (list Z)) (row : list Z) :
  (0 ≤ c)%Z → k + m = W → T !! i = Some prec → length prec = W →
  T !! S i = Some row → length row = W →
  Py.for_ (Z.of_nat <$> seq k m) (SacADosDynamique.remplir_case (S i) c v) T =
    Ok (<[S i := take k row ++
                  (case_suivante prec c v <$> (Z.of_nat <$> seq k m))]> T).
Proof.
  intros Hc. revert k T row.
  induction m as [|m IH]; intros k T row Hkm Hprec Hlp Hrow Hlr; simpl.
  - rewrite app_nil_r, take_ge by lia. by rewrite list_insert_id.
  - rewrite (remplir_case_ok i k c v T prec row) by (done || lia). simpl.
    rewrite (IH (S k) _ (<[k:=case_suivante prec c v (Z.of_nat k)]> row)).
    + rewrite list_insert_insert_eq. f_equal. f_equal.
      rewrite (take_S_r _ _ (case_suivante prec c v (Z.of_nat k))).
      * rewrite take_insert_ge by lia. by rewrite <- app_assoc.
      * apply list_lookup_insert_eq. lia.
    + lia.
    + rewrite list_lookup_insert_ne by lia. done.
    + done.
    + apply list_lookup_insert_eq. by eapply lookup_lt_Some.
    + by rewrite length_insert.
Qed.

Lemma remplir_ligne_ok (j : nat) (T : list (list Z)) :
  j < n → remplie acs B j T →
  ∃ T', SacADosDynamique.remplir_ligne acs B T (S j) = Ok T' ∧ remplie acs B (S j) T'.
Proof.
  intros Hj (Hlen & Hlow & Hhigh).
  destruct (lookup_lt_is_Some_2 acs j Hj) as [a Ha].
  assert (Hca : (0 ≤ cout_centimes a)%Z).
  { rewrite Forall_lookup in couts_positifs. by eapply couts_positifs. }
  unfold SacADosDynamique.remplir_ligne.
  replace (S j - 1) with j by lia. rewrite (get_ok _ _ _ Ha). simpl.
  unfold Py.range.
  rewrite (boucle_b_ok j _ _ (ligne acs B j) W 0 T (replicate W 0%Z));
    try done.
  - eexists. split; [done|]. split; [by rewrite length_insert|]. split.
    + intros i Hi. destruct (decide (i = S j)) as [->|].
      * rewrite list_lookup_insert_eq by lia. f_equal. simpl. rewrite Ha.
        done.
      * rewrite list_lookup_insert_ne by done. apply Hlow. lia.
    + intros i Hi. rewrite list_lookup_insert_ne by lia. apply Hhigh. lia.
  - by apply Hlow.
  - apply length_ligne.
  - apply Hhigh. lia.
  - by rewrite length_replicate.
Qed.

Lemma boucle_i_ok (m j : nat) (T : list (list Z)) :
  j + m = n → remplie acs B j T →
  ∃ T', Py.for_ (seq (S j) m) (SacADosDynamique.remplir_ligne acs B) T = Ok T'
        ∧ remplie acs B n T'.
Proof.
  revert j T. induction m as [|m IH]; intros j T Hjm HT; simpl.
  - replace n with j by lia. eauto.
  - destruct (remplir_ligne_ok j T) as (T' & -> & HT'); [lia | done |]. simpl.
    apply IH; [lia | done].
Qed.

Lemma remplie_table_de (T : list (list Z)) : remplie acs B n T → T = table_de acs B.
Proof.
  intros (Hlen & Hlow & _). apply list_eq. intros i. unfold table_de.
  rewrite list_lookup_fmap.
  destruct (decide (i ≤ n)).
  - rewrite Hlow by done. rewrite lookup_seq_lt by lia. done.
  - rewrite lookup_ge_None_2 by lia. rewrite lookup_seq_ge by lia. done.
Qed.

(** The loops of [creer_table_dynamique] make every read and write in
    range and build [table_de]. *)
Lemma creer_table_dynamique_ok :
  SacADosDynamique.creer_table_dynamique acs B = Ok (table_de acs B).
Proof.
  unfold SacADosDynamique.creer_table_dynamique.
  destruct (boucle_i_ok n 0 (replicate (n + 1) (replicate W 0%Z)))
    as (T' & -> & HT'); [done| |].
  - split; [by rewrite length_replicate|]. split.
    + intros i Hi. replace i with 0 by lia. simpl.
      replace (n + 1) with (S n) by lia. done.
    + intros i Hi. apply lookup_replicate_2. lia.
  - f_equal. by apply remplie_table_de.
Qed.

Lemma lookup_table_de (i : nat) :
  i ≤ n → table_de acs B !! i = Some (ligne acs B i).
Proof.
  intros Hi. unfold table_de. rewrite list_lookup_fmap.
  by rewrite lookup_seq_lt by lia.
Qed.

End Table.

Section TableProps.
Variable acs : list action_centimes.
Variable B : Z.

Abbreviation W := (Z.to_nat (B + 1)).

Lemma elem_of_range (m b : Z) : b ∈ Py.range m ↔ (0 ≤ b < m)%Z.
Proof.
  unfold Py.range. rewrite list_elem_of_fmap. split.
  - intros (k & -> & Hk%elem_of_seq). lia.
  - intros Hb. exists (Z.to_nat b). rewrite elem_of_seq. lia.
Qed.

Lemma lookup_total_range (f : Z → Z) (m : Z) (k : nat) :
  k < Z.to_nat m → (f <$> Py.range m) !!! k = f (Z.of_nat k).
Proof.
  intros Hk. apply list_lookup_total_correct.
  unfold Py.range. rewrite !list_lookup_fmap, lookup_seq_lt by lia. done.
Qed.

Lemma lookup_total_replicate_0 (m k : nat) :
  k < m → replicate m 0%Z !!! k = 0%Z.
Proof. intros. apply list_lookup_total_correct. by apply lookup_replicate_2. Qed.

(** Every entry of the table is non-negative: an entry is at least the
    one above it, and the first row is zero. *)
Lemma ligne_positive (i k : nat) : k < W → (0 ≤ ligne acs B i !!! k)%Z.
Proof.
  intros Hk. induction i as [|i IH]; simpl.
  - by rewrite lookup_total_replicate_0.
  - destruct (acs !! i); [|by rewrite lookup_total_replicate_0].
    unfold ligne_suivante. rewrite lookup_total_range by done.
    unfold case_suivante. rewrite Nat2Z.id. lia.
Qed.

(** An asset that costs more than [b] leaves the entry of the row above. *)
Lemma ligne_trop_chere (i k : nat) (a : action_centimes) :
  acs !! i = Some a → k < W → (Z.of_nat k < cout_centimes a)%Z →
  ligne acs B (S i) !!! k = ligne acs B i !!! k.
Proof.
  intros Ha Hk Hc. simpl. rewrite Ha. unfold ligne_suivante.
  rewrite lookup_total_range by done. unfold case_suivante.
  rewrite Nat2Z.id. destruct (Z.leb_spec (cout_centimes a) (Z.of_nat k)); [lia|].
  pose proof (ligne_positive i k Hk). lia.
Qed.

Lemma ligne_exclusion_eq (i : nat) : ligne_exclusion acs B i = ligne acs B i.
Proof.
  induction i as [|i IH]; simpl; [done|].
  destruct (acs !! i) as [a|]; [|done]. rewrite IH. unfold ligne_suivante.
  apply list_fmap_ext. intros _ b Hb%list_elem_of_lookup_2%elem_of_range.
  unfold case_exclusion, case_suivante.
  destruct (Z.leb_spec (cout_centimes a) b); [done|].
  pose proof (ligne_positive i (Z.to_nat b)). lia.
Qed.

Lemma table_exclusion_eq : table_exclusion acs B = table_de acs B.
Proof.
  unfold table_exclusion, table_de. apply list_fmap_ext.
  intros _ i _. apply ligne_exclusion_eq.
Qed.

End TableProps.

(** ** What the table holds *)

Section Centimes.

Lemma cout_cents_app (s t : list action_centimes) :
  cout_cents (s ++ t) = (cout_cents s + cout_cents t)%Z.
Proof. induction s as [|a s IH]; simpl; [done|]. rewrite IH. lia. Qed.

Lemma benefice_cents_app (s t : list action_centimes) :
  benefice_cents (s ++ t) = (benefice_cents s + benefice_cents t)%Z.
Proof. induction s as [|a s IH]; simpl; [done|]. rewrite IH. lia. Qed.



Lemma cout_cents_positive (s : list action_centimes) :
  Forall (fun a => (0 ≤ cout_centimes a)%Z) s → (0 ≤ cout_cents s)%Z.
Proof. induction 1; simpl; lia. Qed.

End Centimes.

Section Optimalite.
Variable acs : list action_centimes.
Variable B : Z.
Hypothesis couts_positifs : Forall (fun a => (0 ≤ cout_centimes a)%Z) acs.

(** An entry [table[i][b]] bounds the profit in cents of every selection
    of the first [i] assets whose cost in cents is at most [b]. *)
Lemma ligne_majore (i : nat) (b : Z) (s : list action_centimes) :
  i ≤ length acs → (0 ≤ b ≤ B)%Z → s `sublist_of` take i acs →
  (cout_cents s ≤ b)%Z →
  (benefice_cents s ≤ ligne acs B i !!! Z.to_nat b)%Z.
Proof.
  revert b s. induction i as [|i IH]; intros b s Hi Hb Hs Hc.
  - rewrite take_0 in Hs. apply sublist_nil_r in Hs as ->. simpl.
    rewrite lookup_total_replicate_0 by lia. done.
  - destruct (lookup_lt_is_Some_2 acs i) as [a Ha]; [lia|].
    rewrite (take_S_r _ _ _ Ha) in Hs.
    apply sublist_app_r in Hs as (s1 & s2 & -> & Hs1 & Hs2).
    simpl. rewrite Ha. unfold ligne_suivante.
    rewrite lookup_total_range by lia. unfold case_suivante.
    rewrite Z2Nat.id by lia.
    apply sublist_cons_r in Hs2 as [Hs2 | (s2' & -> & Hs2)].
    + apply sublist_nil_r in Hs2 as ->. rewrite app_nil_r in *.
      pose proof (IH b s1 ltac:(lia) Hb Hs1 Hc). lia.
    + apply sublist_nil_r in Hs2 as ->.
      rewrite cout_cents_app in Hc. rewrite benefice_cents_app. simpl in *.
      assert (0 ≤ cout_cents s1)%Z.
      { apply cout_cents_positive. eapply sublist_Forall; [exact Hs1|].
        by apply Forall_take. }
      assert (Hca : (0 ≤ cout_centimes a)%Z).
      { rewrite Forall_lookup in couts_positifs. by eapply couts_positifs. }
      destruct (Z.leb_spec (cout_centimes a) b); [|lia].
      pose proof (IH (b - cout_centimes a)%Z s1 ltac:(lia) ltac:(lia) Hs1
                    ltac:(lia)). lia.
Qed.

(** An entry [table[i][b]] is the profit in cents of a selection of the
    first [i] assets whose cost in cents is at most [b]. *)
Lemma ligne_atteinte (i : nat) (b : Z) :
  i ≤ length acs → (0 ≤ b ≤ B)%Z →
  ∃ s, s `sublist_of` take i acs ∧ (cout_cents s ≤ b)%Z ∧
       benefice_cents s = ligne acs B i !!! Z.to_nat b.
Proof.
  revert b. induction i as [|i IH]; intros b Hi Hb.
  - exists []. simpl. rewrite lookup_total_replicate_0 by lia.
    split; [apply sublist_nil_l|]. split; [lia|done].
  - destruct (lookup_lt_is_Some_2 acs i) as [a Ha]; [lia|].
    rewrite (take_S_r _ _ _ Ha).
    simpl. rewrite Ha. unfold ligne_suivante.
    rewrite lookup_total_range by lia. unfold case_suivante.
    rewrite Z2Nat.id by lia.
    destruct (IH b) as (s & Hs & Hc & Hv); [lia|lia|].
    destruct (Z.leb_spec (cout_centimes a) b) as [Hle|Hgt].
    + destruct (Z.max_spec (ligne acs B i !!! Z.to_nat b)
                  (ligne acs B i !!! Z.to_nat (b - cout_centimes a)
                   + benefice_centimes a)) as [[_ ->]|[_ ->]].
      * assert (Hca : (0 ≤ cout_centimes a)%Z).
        { rewrite Forall_lookup in couts_positifs. by eapply couts_positifs. }
        destruct (IH (b - cout_centimes a)%Z) as (s' & Hs' & Hc' & Hv'); [lia|lia|].
        exists (s' ++ [a]). split; [by apply sublist_app|].
        rewrite cout_cents_app, benefice_cents_app. simpl. split; lia.
      * exists s. split; [by apply sublist_inserts_r|]. done.
    + pose proof (ligne_positive acs B i (Z.to_nat b)).
      exists s. split; [by apply sublist_inserts_r|]. split; [done|]. lia.
Qed.

(** When every asset costs at least one cent, the column of budget 0 is
    zero. *)
Lemma colonne_zero (i : nat) :
  Forall (fun a => (0 < cout_centimes a)%Z) acs → (0 ≤ B)%Z →
  ligne acs B i !!! 0 = 0%Z.
Proof.
  intros Hpos HB. induction i as [|i IH]; simpl.
  - rewrite lookup_total_replicate_0 by lia. done.
  - destruct (acs !! i) as [a|] eqn:Ha;
      [|rewrite lookup_total_replicate_0 by lia; done].
    unfold ligne_suivante. rewrite lookup_total_range by lia.
    unfold case_suivante. rewrite Nat2Z.id.
    assert (0 < cout_centimes a)%Z.
    { rewrite Forall_lookup in Hpos. by eapply Hpos. }
    destruct (Z.leb_spec (cout_centimes a) (Z.of_nat 0)); [simpl in *; lia|].
    rewrite IH. done.
Qed.

End Optimalite.

(** ** Conversion to cents *)

Section Conversion.

Lemma valide_spec (a : action) :
  valide a = true ↔ (0 < cout a)%Q ∧ (0 < benefice_pct a)%Q.
Proof. unfold valide. by rewrite andb_true_iff, !ltb_spec. Qed.

Lemma chargee_spec (a : action) :
  chargee a = true ↔
  valide a = true ∧
  ∃ be, benefice_euros a = Some be ∧ (be == cout a * benefice_pct a / 100)%Q.
Proof.
  unfold chargee. rewrite andb_true_iff.
  destruct (benefice_euros a) as [be|].
  - rewrite Qeq_bool_iff. split.
    + intros [? ?]. eauto.
    + by intros [? (be' & [= <-] & ?)].
  - split; [by intros [? ?]|]. by intros [? (be' & [=] & ?)].
Qed.

Lemma classee_spec (a : action) :
  classee a = true ↔
  valide a = true ∧
  ∃ r, ratio a = Some r ∧ (r == benefice_pct a / cout a)%Q.
Proof.
  unfold classee. rewrite andb_true_iff.
  destruct (ratio a) as [r|].
  - rewrite Qeq_bool_iff. split.
    + intros [? ?]. eauto.
    + by intros [? (r' & [= <-] & ?)].
  - split; [by intros [? ?]|]. by intros [? (r' & [=] & ?)].
Qed.

Lemma forallb_Forall {A} (p : A → bool) (l : list A) :
  forallb p l = true ↔ Forall (fun a => p a = true) l.
Proof.
  rewrite forallb_forall, Forall_forall.
  by setoid_rewrite list_elem_of_In.
Qed.

Lemma int_positive (q : Q) : (0 <= q)%Q → (0 ≤ Py.int q)%Z.
Proof.
  intros Hq. unfold Py.int. apply Z.quot_pos; [|lia].
  unfold Qle in Hq. simpl in Hq. lia.
Qed.

Lemma int_negative (q : Q) : (q <= 0)%Q → (Py.int q ≤ 0)%Z.
Proof.
  intros Hq. unfold Py.int.
  assert (Hn : (Qnum q ≤ 0)%Z) by (unfold Qle in Hq; simpl in Hq; lia).
  pose proof (Z.quot_pos (- Qnum q) (Z.pos (Qden q))) as Hp.
  rewrite Z.quot_opp_l in Hp by lia. lia.
Qed.

Lemma convertir_acc (l : list action) (acc : list action_centimes) :
  Forall (fun a => is_Some (benefice_euros a)) l →
  Py.for_ l
    (fun actions_centimes a =>
       let c := Py.int (cout a * 100) in
       be ← Py.cle "benefice_euros" (benefice_euros a);
       Ok (actions_centimes ++ [ActionCentimes a c (Py.int (be * 100))]))
    acc
  = Ok (acc ++ (en_centimes <$> l)).
Proof.
  intros H. revert acc. induction H as [|a l [be Hbe] _ IH]; intros acc; simpl.
  - by rewrite app_nil_r.
  - rewrite Hbe. simpl. rewrite IH, <- app_assoc. simpl.
    unfold en_centimes at 2. by rewrite Hbe.
Qed.

Lemma convertir_ok (l : list action) :
  Forall (fun a => is_Some (benefice_euros a)) l →
  SacADosDynamique.convertir_actions_en_centimes l = Ok (en_centimes <$> l).
Proof. intros H. apply (convertir_acc l [] H). Qed.

Lemma chargee_is_Some (l : list action) :
  forallb chargee l = true → Forall (fun a => is_Some (benefice_euros a)) l.
Proof.
  rewrite forallb_Forall. intros H. eapply Forall_impl; [exact H|].
  intros a (_ & be & -> & _)%chargee_spec. eauto.
Qed.

Lemma chargee_valide (l : list action) :
  forallb chargee l = true → forallb valide l = true.
Proof.
  rewrite !forallb_Forall. intros H. eapply Forall_impl; [exact H|].
  by intros a [? _]%chargee_spec.
Qed.

Lemma couts_centimes_positifs (l : list action) :
  forallb valide l = true →
  Forall (fun a => (0 ≤ cout_centimes a)%Z) (en_centimes <$> l).
Proof.
  rewrite forallb_Forall, Forall_fmap. intros H. eapply Forall_impl; [exact H|].
  intros a [Hc _]%valide_spec. simpl. apply int_positive.
  apply Qlt_le_weak. apply Qmult_lt_0_compat; [done | reflexivity].
Qed.

End Conversion.

Section Backtracking.
Variable l : list action.
Variable B : Z.
Hypothesis l_valides : forallb valide l = true.

Abbreviation acs := (en_centimes <$> l).
Abbreviation T := (table_de acs B).

(** A changed entry means that the asset of the row fits in [b]. *)
Lemma changement_implique_cout (i : nat) (a : action_centimes) (b : Z) :
  acs !! i = Some a → (0 ≤ b ≤ B)%Z →
  ligne acs B (S i) !!! Z.to_nat b ≠ ligne acs B i !!! Z.to_nat b →
  (cout_centimes a ≤ b)%Z.
Proof.
  intros Ha Hb Hne. destruct (Z.le_gt_cases (cout_centimes a) b); [done|].
  exfalso. apply Hne. apply (ligne_trop_chere acs B i _ a); [done|lia|lia].
Qed.

(** The value of an entry below the first row. *)
Lemma ligne_S (i : nat) (a : action_centimes) (b : Z) :
  acs !! i = Some a → (0 ≤ b ≤ B)%Z →
  ligne acs B (S i) !!! Z.to_nat b =
  case_suivante (ligne acs B i) (cout_centimes a) (benefice_centimes a) b.
Proof.
  intros Ha Hb. simpl. rewrite Ha. unfold ligne_suivante.
  rewrite lookup_total_range by lia. by rewrite Z2Nat.id by lia.
Qed.

(** The backward walk from any row [i] and any [b] between 0 and the
    budget: it ends without an index error, [b] stays between 0 and its
    initial value, and the assets it adds are, read backwards, assets of
    the first [i] positions of the list, in list order.  Their cost in
    cents is what [b] lost; their profit in cents is at most the entry
    the walk started from, and is that entry when every asset costs at
    least one cent. *)
Lemma remonter_ok (i : nat) (b : Z) (sel : list action) :
  i ≤ length l → (0 ≤ b ≤ B)%Z →
  ∃ picks b',
    SacADosDynamique.remonter l acs T i b sel = Ok (sel ++ picks, b') ∧
    (0 ≤ b' ≤ b)%Z ∧ reverse picks `sublist_of` take i l ∧
    cout_cents (en_centimes <$> picks) = (b - b')%Z ∧
    (benefice_cents (en_centimes <$> picks) ≤ ligne acs B i !!! Z.to_nat b)%Z ∧
    (Forall (fun a => (0 < cout_centimes a)%Z) acs →
     benefice_cents (en_centimes <$> picks) = ligne acs B i !!! Z.to_nat b).
Proof.
  revert b sel. induction i as [|i IH]; intros b sel Hi Hb.
  - exists [], b. simpl. rewrite app_nil_r, lookup_total_replicate_0 by lia.
    split; [done|]. split; [lia|]. split; [apply sublist_nil_l|].
    split; [lia|]. split; [lia|done].
  - cbn [SacADosDynamique.remonter]. destruct (Z.ltb_spec 0 b) as [Hpos|Hneg].
    2:{ exists [], b. rewrite app_nil_r. replace b with 0%Z in * by lia.
        split; [done|]. split; [lia|]. split; [apply sublist_nil_l|].
        split; [simpl; lia|]. split.
        - apply (ligne_positive acs B (S i) 0). lia.
        - intros Hcents. symmetry. apply colonne_zero; [done|lia]. }
    assert (Hn : length acs = length l) by by rewrite length_fmap.
    rewrite (get_ok T (S i) (ligne acs B (S i)))
      by (apply lookup_table_de; lia).
    cbn [mbind resultat_bind].
    rewrite (get_total (ligne acs B (S i)) b) by (rewrite length_ligne; lia).
    cbn [mbind resultat_bind].
    rewrite (get_ok T i (ligne acs B i)) by (apply lookup_table_de; lia).
    cbn [mbind resultat_bind].
    rewrite (get_total (ligne acs B i) b) by (rewrite length_ligne; lia).
    cbn [mbind resultat_bind].
    destruct (lookup_lt_is_Some_2 l i) as [a Ha]; [lia|].
    assert (Hac : acs !! i = Some (en_centimes a))
      by by rewrite list_lookup_fmap, Ha.
    case_decide as Hne.
    + rewrite (get_ok l i a Ha). cbn [mbind resultat_bind].
      rewrite (get_ok acs i _ Hac). cbn [mbind resultat_bind].
      pose proof (changement_implique_cout i _ b Hac Hb Hne) as Hc.
      assert (Hc0 : (0 ≤ cout_centimes (en_centimes a))%Z).
      { pose proof (couts_centimes_positifs l l_valides) as Hall.
        rewrite Forall_lookup in Hall. by eapply Hall. }
      assert (Hval : ligne acs B (S i) !!! Z.to_nat b =
                     (ligne acs B i !!! Z.to_nat (b - cout_centimes (en_centimes a))
                      + benefice_centimes (en_centimes a))%Z).
      { rewrite (ligne_S i _ b Hac) in Hne |- * by lia. unfold case_suivante in *.
        destruct (Z.leb_spec (cout_centimes (en_centimes a)) b); lia. }
      destruct (IH (b - cout_centimes (en_centimes a))%Z (sel ++ [a]))
        as (picks & b' & -> & Hb' & Hsub & Hcout & Hben & Heq); [lia|lia|].
      exists (a :: picks), b'. rewrite <- app_assoc. split; [done|].
      split; [lia|]. split.
      { rewrite reverse_cons, (take_S_r _ _ _ Ha). by apply sublist_app. }
      rewrite fmap_cons. cbn [cout_cents benefice_cents foldr].
      fold (cout_cents (en_centimes <$> picks)).
      fold (benefice_cents (en_centimes <$> picks)).
      split; [lia|]. split; [lia|]. intros Hcents. rewrite (Heq Hcents). lia.
    + assert (Hval : ligne acs B (S i) !!! Z.to_nat b =
                     ligne acs B i !!! Z.to_nat b).
      { destruct (decide (ligne acs B (S i) !!! Z.to_nat b =
                          ligne acs B i !!! Z.to_nat b)); [done|]. by destruct Hne. }
      destruct (IH b sel) as (picks & b' & -> & Hb' & Hsub & Hcout & Hben & Heq);
        [lia|lia|].
      exists picks, b'. split; [done|]. split; [lia|]. split.
      { rewrite (take_S_r _ _ _ Ha). by apply sublist_inserts_r. }
      rewrite Hval. done.
Qed.

(** With no budget left at the start the walk does not run. *)
Lemma remonter_budget_nul (i : nat) (b : Z) (tbl : list (list Z))
    (xs : list action_centimes) (sel : list action) :
  (b ≤ 0)%Z → SacADosDynamique.remonter l xs tbl i b sel = Ok (sel, b).
Proof.
  intros Hb. destruct i; simpl; [done|].
  by destruct (Z.ltb_spec 0 b); [lia|].
Qed.

End Backtracking.

Section Totaux.


Lemma calculer_solution_acc (sel : list action) (acc : Q) :
  Forall (fun a => is_Some (benefice_euros a)) sel →
  Py.for_ sel
    (fun acc a =>
       be ← Py.cle "benefice_euros" (benefice_euros a); Ok (acc + be)%Q)
    acc
  = Ok (fold_left (fun acc a => (acc + benefice_stocke a)%Q) sel acc).
Proof.
  intros H. revert acc. induction H as [|a sel [be Hbe] _ IH]; intros acc; simpl.
  - done.
  - assert (benefice_stocke a = be) as -> by (unfold benefice_stocke; by rewrite Hbe).
    rewrite Hbe. simpl. by rewrite IH.
Qed.

Lemma calculer_solution_ok (sel : list action) :
  Forall (fun a => is_Some (benefice_euros a)) sel →
  SacADosDynamique.calculer_solution sel =
    Ok (Solution sel (Py.sum cout sel) (Py.sum benefice_stocke sel)).
Proof.
  intros H. unfold SacADosDynamique.calculer_solution.
  by rewrite (calculer_solution_acc sel 0%Q H).
Qed.

(** The two dynamic programs are the same code. *)
Lemma algorithme_dynamique_eq (l : list action) (budget_max : Q) :
  AnalyseDatasets.algorithme_dynamique l budget_max =
  SacADosDynamique.algorithme_sac_a_dos l budget_max.
Proof.
  unfold AnalyseDatasets.algorithme_dynamique,
    SacADosDynamique.algorithme_sac_a_dos,
    SacADosDynamique.convertir_actions_en_centimes.
  destruct (Py.for_ l _ []) as [xs|e]; [|done]. cbn [mbind resultat_bind].
  change (Py.for_ (seq 1 (length xs)) _ _)
    with (SacADosDynamique.creer_table_dynamique xs (Py.int (budget_max * 100))).
  destruct (SacADosDynamique.creer_table_dynamique xs _) as [tbl|e]; [|done].
  cbn [mbind resultat_bind]. unfold SacADosDynamique.retrouver_actions.
  change (AnalyseDatasets.remonter) with (SacADosDynamique.remonter).
  destruct (SacADosDynamique.remonter l xs tbl _ _ _) as [[sel b]|e]; done.
Qed.

(** The dynamic program on loaded assets: it raises nothing and returns
    assets of its input, in input order, with the totals of their
    original fields. *)
Lemma algorithme_sac_a_dos_ok (l : list action) (budget_max : Q) :
  forallb chargee l = true →
  ∃ sel, sel `sublist_of` l ∧
    SacADosDynamique.algorithme_sac_a_dos l budget_max =
      Ok (Solution sel (Py.sum cout sel) (Py.sum benefice_stocke sel)).
Proof.
  intros Hl. pose proof (chargee_is_Some l Hl) as Hsome.
  pose proof (chargee_valide l Hl) as Hval.
  unfold SacADosDynamique.algorithme_sac_a_dos.
  rewrite (convertir_ok l Hsome). cbn [mbind resultat_bind].
  rewrite creer_table_dynamique_ok by by apply couts_centimes_positifs.
  cbn [mbind resultat_bind]. unfold SacADosDynamique.retrouver_actions.
  set (B := Py.int (budget_max * 100)).
  rewrite length_fmap.
  destruct (Z.le_gt_cases 0 B) as [HB|HB].
  - destruct (remonter_ok l B Hval (length l) B [])
      as (picks & b' & -> & _ & Hsub & _); [lia|lia|].
    cbn [mbind resultat_bind app]. rewrite firstn_all in Hsub.
    exists (reverse picks). split; [done|].
    apply calculer_solution_ok. by eapply sublist_Forall.
  - rewrite remonter_budget_nul by lia. cbn [mbind resultat_bind].
    exists []. split; [apply sublist_nil_l|]. done.
Qed.


Lemma algorithme_sac_a_dos_budget_nul (l : list action) (budget_max : Q) :
  forallb chargee l = true → (budget_max <= 0)%Q →
  SacADosDynamique.algorithme_sac_a_dos l budget_max = Ok solution_vide.
Proof.
  intros Hl Hb. pose proof (chargee_is_Some l Hl) as Hsome.
  pose proof (chargee_valide l Hl) as Hval.
  unfold SacADosDynamique.algorithme_sac_a_dos.
  rewrite (convertir_ok l Hsome). cbn [mbind resultat_bind].
  rewrite creer_table_dynamique_ok by by apply couts_centimes_positifs.
  cbn [mbind resultat_bind]. unfold SacADosDynamique.retrouver_actions.
  rewrite remonter_budget_nul; [done|].
  apply int_negative. lra.
Qed.

End Totaux.

Section Sommes.

Lemma calculer_benefice_total_acc (l : list action) (c b : Q) :
  fold_left
    (fun '(cout_acc, benefice_total_euros) a =>
       let benefice_en_euros := (cout a * benefice_pct a / 100)%Q in
       ((cout_acc + cout a)%Q, (benefice_total_euros + benefice_en_euros)%Q))
    l (c, b)
  = (fold_left (fun acc a => (acc + cout a)%Q) l c,
     fold_left (fun acc a => (acc + benefice_calcule a)%Q) l b).
Proof. revert c b. induction l as [|a l IH]; intros c b; simpl; [done|]. by rewrite IH. Qed.

Lemma cout_de_sum (l : list action) : cout_de l = Py.sum cout l.
Proof.
  unfold cout_de, Bruteforce.calculer_benefice_total.
  by rewrite calculer_benefice_total_acc.
Qed.


Lemma fold_sum_acc {A} (f : A → Q) (l : list A) (acc : Q) :
  (fold_left (fun acc a => (acc + f a)%Q) l acc == acc + Py.sum f l)%Q.
Proof.
  unfold Py.sum. revert acc. induction l as [|a l IH]; intros acc; simpl.
  - lra.
  - rewrite IH, (IH (0 + f a)%Q). lra.
Qed.

Lemma sum_cons {A} (f : A → Q) (a : A) (l : list A) :
  (Py.sum f (a :: l) == f a + Py.sum f l)%Q.
Proof. unfold Py.sum at 1. simpl. rewrite fold_sum_acc. lra. Qed.

Lemma sum_positive {A} (f : A → Q) (l : list A) :
  Forall (fun a => (0 < f a)%Q) l → l ≠ [] → (0 < Py.sum f l)%Q.
Proof.
  induction 1 as [|a l Ha Hl IH]; intros Hne; [done|].
  rewrite sum_cons. destruct l as [|a' l'].
  - unfold Py.sum. simpl. lra.
  - assert (0 < Py.sum f (a' :: l'))%Q by by apply IH. lra.
Qed.



End Sommes.

Section SansBudget.
Variable budget_max : Q.
Hypothesis budget_nul : (budget_max <= 0)%Q.

Lemma cout_de_positive (c : list action) :
  Forall (fun a => valide a = true) c → c ≠ [] → (0 < cout_de c)%Q.
Proof.
  intros Hc Hne. rewrite cout_de_sum. apply sum_positive; [|done].
  eapply Forall_impl; [exact Hc|]. by intros a [? _]%valide_spec.
Qed.

Lemma trouver_meilleure_combinaison_budget_nul (l : list action) :
  forallb valide l = true →
  Bruteforce.trouver_meilleure_combinaison l budget_max = solution_vide.
Proof.
  intros Hl%forallb_Forall. unfold Bruteforce.trouver_meilleure_combinaison.
  rewrite parcourir_fold.
  destruct (fold_examiner budget_max (Bruteforce.enumeration l)
              (Bruteforce.Etat (Solution [] 0%Q 0%Q) 0))
    as [(Hr & _) | (pre & post & Hcs & _ & Hfr & _)]; [done|].
  exfalso. set (r := Bruteforce.meilleure_solution _) in *.
  assert (Hin : actions r ∈ Bruteforce.enumeration l).
  { rewrite Hcs. apply elem_of_app. right. by left. }
  apply elem_of_enumeration in Hin as [Hsub Hne].
  pose proof (cout_de_positive (actions r) (sublist_Forall _ _ _ Hsub Hl) Hne).
  unfold faisable in Hfr. lra.
Qed.

Lemma selectionner_budget_nul (xs : list action) (rest : Q) :
  Forall (fun a => valide a = true) xs → (rest <= 0)%Q →
  fold_left Optimized.selectionner xs ([], rest) = ([], rest).
Proof.
  intros Hxs Hrest. induction Hxs as [|a xs [Ha _]%valide_spec _ IH]; simpl; [done|].
  destruct (Py.leb (cout a) rest) eqn:Hle; [|done].
  apply leb_spec in Hle. lra.
Qed.

End SansBudget.

Section Glouton.

(** The selection loop: it appends assets of the list it scans, in
    scanning order, and what it spends comes out of the budget left. *)
Lemma selectionner_spec (xs sel : list action) (rest : Q) :
  (0 <= rest)%Q →
  ∃ picks rest',
    fold_left Optimized.selectionner xs (sel, rest) = (sel ++ picks, rest') ∧
    picks `sublist_of` xs ∧ (0 <= rest')%Q ∧
    (Py.sum cout picks + rest' == rest)%Q.
Proof.
  revert sel rest. induction xs as [|a xs IH]; intros sel rest Hrest; simpl.
  - exists [], rest. rewrite app_nil_r. repeat split; try done.
    unfold Py.sum. simpl. lra.
  - destruct (Py.leb (cout a) rest) eqn:Hle.
    + apply leb_spec in Hle.
      destruct (IH (sel ++ [a]) (rest - cout a)%Q)
        as (picks & rest' & -> & Hsub & Hpos & Hsum); [lra|].
      exists (a :: picks), rest'. rewrite <- app_assoc.
      repeat split; try done.
      * by constructor.
      * rewrite sum_cons. lra.
    + destruct (IH sel rest) as (picks & rest' & -> & Hsub & Hpos & Hsum); [done|].
      exists picks, rest'. repeat split; try done. by constructor.
Qed.

Lemma map_ok {A B} (f : A → resultat B) (g : A → B) (l : list A) :
  Forall (fun a => f a = Ok (g a)) l → Py.map_ f l = Ok (g <$> l).
Proof.
  induction 1 as [|a l Ha _ IH]; simpl; [done|]. by rewrite Ha, IH.
Qed.

Lemma inserer_perm {A} (x : Q * A) (l : list (Q * A)) :
  Py.inserer x l ≡ₚ x :: l.
Proof.
  induction l as [|y l IH]; simpl; [done|].
  destruct (Py.ltb x.1 y.1); [|done].
  rewrite IH. apply Permutation_swap.
Qed.

Lemma tri_perm {A} (l : list (Q * A)) : foldr Py.inserer [] l ≡ₚ l.
Proof.
  induction l as [|x l IH]; simpl; [done|]. by rewrite inserer_perm, IH.
Qed.



(** [sorted] on a list whose keys can all be read returns a
    rearrangement of the list. *)
Lemma sorted_reverse_ok {A} (key : A → resultat Q) (k : A → Q) (l : list A) :
  Forall (fun a => key a = Ok (k a)) l →
  ∃ l', Py.sorted_reverse key l = Ok l' ∧ l' ≡ₚ l.
Proof.
  intros H. unfold Py.sorted_reverse. rewrite (map_ok key k l H).
  cbn [mbind resultat_bind]. eexists. split; [done|].
  rewrite tri_perm. rewrite snd_zip; [done|]. by rewrite length_fmap.
Qed.

End Glouton.

Section GloutonOptimized.

Lemma cle_ratio_classee (l : list action) :
  forallb classee l = true →
  Forall (fun a => Py.cle "ratio" (ratio a) = Ok (default 0%Q (ratio a))) l.
Proof.
  rewrite forallb_Forall. intros H. eapply Forall_impl; [exact H|].
  intros a (_ & r & -> & _)%classee_spec. done.
Qed.

Lemma classee_valide (l : list action) :
  forallb classee l = true → Forall (fun a => valide a = true) l.
Proof.
  rewrite forallb_Forall. intros H. eapply Forall_impl; [exact H|].
  by intros a [? _]%classee_spec.
Qed.

(** The scan of a ranked list, for any budget. *)
Lemma selection_spec (xs : list action) (budget_max : Q) :
  Forall (fun a => valide a = true) xs →
  ∃ sel rest,
    fold_left Optimized.selectionner xs ([], budget_max) = (sel, rest) ∧
    sel `sublist_of` xs ∧
    ((0 <= budget_max)%Q → (Py.sum cout sel <= budget_max)%Q) ∧
    ((budget_max <= 0)%Q → sel = []).
Proof.
  intros Hxs. destruct (Qlt_le_dec budget_max 0) as [Hneg|Hpos].
  - exists [], budget_max. rewrite selectionner_budget_nul by (done || lra).
    split; [done|]. split; [apply sublist_nil_l|]. split; [intros; lra | done].
  - destruct (selectionner_spec xs [] budget_max Hpos)
      as (picks & rest & -> & Hsub & Hrest & Hsum).
    exists picks, rest. split; [done|]. split; [done|]. split; [intros; lra|].
    intros Hb. assert (Hz : (budget_max == 0)%Q) by lra.
    destruct picks as [|a picks]; [done|]. exfalso.
    assert (0 < Py.sum cout (a :: picks))%Q; [|lra].
    apply sum_positive; [|done].
    eapply Forall_impl; [exact (sublist_Forall _ _ _ Hsub Hxs)|].
    by intros ? [? _]%valide_spec.
Qed.

(** The greedy solver of [optimized.py] on assets that carry their
    ratio. *)
Lemma algorithme_glouton_ok (l : list action) (budget_max : Q) :
  forallb classee l = true →
  ∃ sel,
    Optimized.algorithme_glouton l budget_max =
      Ok (Solution sel (Py.sum cout sel) (Py.sum benefice_calcule sel)) ∧
    sel ⊆+ l ∧
    ((0 <= budget_max)%Q → (Py.sum cout sel <= budget_max)%Q) ∧
    ((budget_max <= 0)%Q → sel = []).
Proof.
  intros Hl. unfold Optimized.algorithme_glouton.
  destruct (sorted_reverse_ok _ _ l (cle_ratio_classee l Hl)) as (l' & -> & Hperm).
  cbn [mbind resultat_bind].
  destruct (selection_spec l' budget_max) as (sel & rest & -> & Hsub & Hle & Hnul).
  { rewrite Hperm. by apply classee_valide. }
  exists sel. split; [done|]. split; [|done].
  rewrite <- Hperm. by apply sublist_submseteq.
Qed.

End GloutonOptimized.

Section GloutonAnalyse.

Lemma calculer_ratio_ok (l : list action) :
  Forall (fun a => valide a = true) l →
  Py.map_ AnalyseDatasets.calculer_ratio l = Ok (avec_ratio <$> l).
Proof.
  intros H. apply map_ok. eapply Forall_impl; [exact H|].
  intros a [Hc _]%valide_spec. unfold AnalyseDatasets.calculer_ratio, Py.div.
  destruct (Qeq_bool (cout a) 0) eqn:Hz; [|done].
  apply Qeq_bool_iff in Hz. lra.
Qed.

Lemma avec_ratio_valide (l : list action) :
  Forall (fun a => valide a = true) l →
  Forall (fun a => valide a = true) (avec_ratio <$> l).
Proof. rewrite Forall_fmap. intros H. eapply Forall_impl; [exact H|]. done. Qed.

(** The greedy solver of [analyse_datasets.py]: what it returns and what
    it leaves in the list it was given. *)
Lemma analyse_glouton_ok (l : list action) (budget_max : Q) :
  forallb valide l = true →
  ∃ sel,
    sel ⊆+ avec_ratio <$> l ∧
    ((0 <= budget_max)%Q → (Py.sum cout sel <= budget_max)%Q) ∧
    ((budget_max <= 0)%Q → sel = []) ∧
    (Forall (fun a => is_Some (benefice_euros a)) sel →
     AnalyseDatasets.algorithme_glouton l budget_max =
       Ok (avec_ratio <$> l,
           Solution sel (Py.sum cout sel) (Py.sum benefice_stocke sel))).
Proof.
  intros Hl%forallb_Forall. unfold AnalyseDatasets.algorithme_glouton.
  rewrite (calculer_ratio_ok l Hl). cbn [mbind resultat_bind].
  destruct (sorted_reverse_ok (fun a => Py.cle "ratio" (ratio a))
              (fun a => (benefice_pct a / cout a)%Q) (avec_ratio <$> l))
    as (l' & -> & Hperm).
  { rewrite Forall_fmap. by apply Forall_true. }
  cbn [mbind resultat_bind].
  change AnalyseDatasets.selectionner with Optimized.selectionner.
  destruct (selection_spec l' budget_max) as (sel & rest & -> & Hsub & Hle & Hnul).
  { rewrite Hperm. by apply avec_ratio_valide. }
  exists sel. split; [|split; [done|split; [done|]]].
  - rewrite <- Hperm. by apply sublist_submseteq.
  - intros Hsome.
    change (AnalyseDatasets.calculer_solution sel)
      with (SacADosDynamique.calculer_solution sel).
    by rewrite (calculer_solution_ok sel Hsome).
Qed.

End GloutonAnalyse.

(** ** Assets in whole cents *)

Section CentimesEntiers.







End CentimesEntiers.

(** ** The greedy solver against the optimum *)

Section GloutonContreOptimum.





End GloutonContreOptimum.

(** * The claims *)

(** ** The exhaustive solver *)



(** ** The dynamic program *)

(** C6.  When every asset has a non-negative cost in cents, the table that
    [creer_table_dynamique] builds, with [prendre = 0] for an asset that
    does not fit, is the table of the recurrence that only excludes such an
    asset.  Every entry is non-negative, and an entry of a row whose asset
    costs more than [b] is the entry above it. *)
Theorem table_exclusion_equivalente (acs : list action_centimes) (B : Z) :
  Forall (fun a => (0 ≤ cout_centimes a)%Z) acs →
  ∃ T, SacADosDynamique.creer_table_dynamique acs B = Ok T ∧
       T = table_exclusion acs B ∧
       (∀ i row b v, T !! i = Some row → row !! b = Some v → (0 ≤ v)%Z) ∧
       (∀ i a prec row b,
          acs !! i = Some a → T !! i = Some prec → T !! S i = Some row →
          b < length row → (Z.of_nat b < cout_centimes a)%Z →
          row !! b = prec !! b).
Proof.
  intros Hc. exists (table_de acs B).
  split; [by apply creer_table_dynamique_ok|].
  split; [by rewrite table_exclusion_eq|]. split.
  - intros i row b v Hrow Hv.
    assert (Hi : i ≤ length acs).
    { apply lookup_lt_Some in Hrow. unfold table_de in Hrow.
      rewrite length_fmap, length_seq in Hrow. lia. }
    rewrite lookup_table_de in Hrow by done.
    assert (row = ligne acs B i) as -> by congruence.
    pose proof (lookup_lt_Some _ _ _ Hv) as Hb. rewrite length_ligne in Hb.
    apply list_lookup_total_correct in Hv as <-. by apply ligne_positive.
  - intros i a prec row b Ha Hprec Hrow Hb Hcost.
    pose proof (lookup_lt_Some _ _ _ Ha) as Hi.
    rewrite lookup_table_de in Hprec, Hrow by lia.
    assert (prec = ligne acs B i) as -> by congruence.
    assert (row = ligne acs B (S i)) as -> by congruence.
    rewrite length_ligne in Hb.
    rewrite !list_lookup_lookup_total_lt by (rewrite length_ligne; lia).
    f_equal. by eapply ligne_trop_chere.
Qed.

Lemma table_exclusion_equivalente_witness :
  Forall (fun a => (0 ≤ cout_centimes a)%Z)
    (en_centimes <$> [action_A; action_B; action_C]) ∧
  ∃ T, SacADosDynamique.creer_table_dynamique
         (en_centimes <$> [action_A; action_B; action_C]) 300 = Ok T ∧
       T = table_exclusion (en_centimes <$> [action_A; action_B; action_C]) 300.
Proof.
  assert (H : Forall (fun a => (0 ≤ cout_centimes a)%Z)
                (en_centimes <$> [action_A; action_B; action_C])).
  { repeat constructor; vm_compute; discriminate. }
  split; [exact H|].
  destruct (table_exclusion_equivalente _ 300 H) as (T & HT & Heq & _).
  exists T. split; [exact HT | exact Heq].
Defined.

(** C10.  On loaded assets the dynamic program never indexes a list out of
    range.  The conversion and the construction of the table end without
    error.  In the table an entry differs from the one above it only when
    the asset of the row costs at most [b]; so the backward walk, started
    from any row and any [b] between 0 and the budget, ends without error
    with [b] still between 0 and its starting value.  The solver returns a
    solution. *)
Theorem indices_dans_les_bornes (l : list action) (budget_max : Q) :
  forallb chargee l = true →
  let B := Py.int (budget_max * 100) in
  let acs := en_centimes <$> l in
  ∃ T,
    SacADosDynamique.convertir_actions_en_centimes l = Ok acs ∧
    SacADosDynamique.creer_table_dynamique acs B = Ok T ∧
    (∀ i a prec row b v v',
       acs !! i = Some a → T !! i = Some prec → T !! S i = Some row →
       (0 ≤ b)%Z → row !! Z.to_nat b = Some v → prec !! Z.to_nat b = Some v' →
       v ≠ v' → (0 ≤ b - cout_centimes a)%Z) ∧
    (∀ i b sel, i ≤ length l → (0 ≤ b ≤ B)%Z →
       ∃ sel' b', SacADosDynamique.remonter l acs T i b sel = Ok (sel', b') ∧
                  (0 ≤ b' ≤ b)%Z) ∧
    (∃ sel, SacADosDynamique.retrouver_actions l acs T B = Ok sel) ∧
    (∃ sol, SacADosDynamique.algorithme_sac_a_dos l budget_max = Ok sol).
Proof.
  intros Hl B acs. pose proof (chargee_valide l Hl) as Hval.
  pose proof (couts_centimes_positifs l Hval) as Hc.
  exists (table_de acs B).
  split; [by apply convertir_ok, chargee_is_Some|].
  split; [by apply creer_table_dynamique_ok|]. split; [|split; [|split]].
  - intros i a prec row b v v' Ha Hprec Hrow Hb Hv Hv' Hne.
    pose proof (lookup_lt_Some _ _ _ Ha) as Hi.
    rewrite lookup_table_de in Hprec, Hrow by lia.
    assert (prec = ligne acs B i) as -> by congruence.
    assert (row = ligne acs B (S i)) as -> by congruence.
    pose proof (lookup_lt_Some _ _ _ Hv) as Hlt. rewrite length_ligne in Hlt.
    apply list_lookup_total_correct in Hv as <-.
    apply list_lookup_total_correct in Hv' as <-.
    enough (cout_centimes a ≤ b)%Z by lia.
    destruct (Z.le_gt_cases (cout_centimes a) b); [done|]. exfalso. apply Hne.
    apply (ligne_trop_chere acs B i _ a); [done | lia | lia].
  - intros i b sel Hi Hb.
    destruct (remonter_ok l B Hval i b sel Hi Hb) as (picks & b' & Hr & Hb' & _).
    eauto.
  - unfold SacADosDynamique.retrouver_actions. subst acs. rewrite length_fmap.
    destruct (Z.le_gt_cases 0 B).
    + destruct (remonter_ok l B Hval (length l) B []) as (picks & b' & -> & _);
        [lia | lia |]. cbn [mbind resultat_bind]. eauto.
    + rewrite remonter_budget_nul by lia. cbn [mbind resultat_bind]. eauto.
  - destruct (algorithme_sac_a_dos_ok l budget_max Hl) as (sel & _ & ->). eauto.
Qed.

Lemma indices_dans_les_bornes_witness :
  forallb chargee [action_A; action_B; action_C] = true ∧
  ∃ sol, SacADosDynamique.algorithme_sac_a_dos
           [action_A; action_B; action_C] 300 = Ok sol.
Proof.
  assert (H : forallb chargee [action_A; action_B; action_C] = true)
    by reflexivity.
  split; [exact H|].
  destruct (indices_dans_les_bornes _ 300 H) as (T & _ & _ & _ & _ & _ & Hsol).
  exact Hsol.
Defined.

(** ** No budget *)


(** Every solver on valid assets and a budget that is zero or negative:
    no error, and the solution with no asset. *)
Lemma sans_budget (l : list action) (budget_max : Q) :
  forallb valide l = true → (budget_max <= 0)%Q →
  Bruteforce.trouver_meilleure_combinaison l budget_max = solution_vide ∧
  (forallb classee l = true →
   Optimized.algorithme_glouton l budget_max = Ok solution_vide) ∧
  AnalyseDatasets.algorithme_glouton l budget_max =
    Ok (avec_ratio <$> l, solution_vide) ∧
  (forallb chargee l = true →
   SacADosDynamique.algorithme_sac_a_dos l budget_max = Ok solution_vide ∧
   AnalyseDatasets.algorithme_dynamique l budget_max = Ok solution_vide).
Proof.
  intros Hl Hb. split; [by apply trouver_meilleure_combinaison_budget_nul|].
  split; [|split].
  - intros Hc. destruct (algorithme_glouton_ok l budget_max Hc)
      as (sel & -> & _ & _ & Hnul). by rewrite (Hnul Hb).
  - destruct (analyse_glouton_ok l budget_max Hl) as (sel & _ & _ & Hnul & Hr).
    rewrite (Hnul Hb) in Hr. by apply Hr.
  - intros Hc. rewrite algorithme_dynamique_eq.
    by rewrite algorithme_sac_a_dos_budget_nul.
Qed.

(** C8.  With budget 0 and valid assets every solver returns the solution
    with no asset, total cost 0 and total profit 0: the exhaustive solver,
    the greedy solver of [optimized.py] (on assets that carry their ratio),
    the greedy solver of [analyse_datasets.py], and the two dynamic
    programs (on assets that carry [benefice_euros]). *)
Theorem budget_zero (l : list action) :
  forallb valide l = true →
  Bruteforce.trouver_meilleure_combinaison l 0 = Solution [] 0%Q 0%Q ∧
  (forallb classee l = true →
   Optimized.algorithme_glouton l 0 = Ok (Solution [] 0%Q 0%Q)) ∧
  (∃ l', AnalyseDatasets.algorithme_glouton l 0 = Ok (l', Solution [] 0%Q 0%Q)) ∧
  (forallb chargee l = true →
   SacADosDynamique.algorithme_sac_a_dos l 0 = Ok (Solution [] 0%Q 0%Q) ∧
   AnalyseDatasets.algorithme_dynamique l 0 = Ok (Solution [] 0%Q 0%Q)).
Proof.
  intros Hl. destruct (sans_budget l 0 Hl) as (H1 & H2 & H3 & H4); [apply Qle_refl|].
  split; [exact H1|]. split; [exact H2|]. split; [eauto | exact H4].
Qed.

Lemma budget_zero_witness :
  forallb valide [action_A; action_B; action_C] = true ∧
  forallb classee [action_A; action_B; action_C] = true ∧
  forallb chargee [action_A; action_B; action_C] = true ∧
  Bruteforce.trouver_meilleure_combinaison [action_A; action_B; action_C] 0
    = Solution [] 0%Q 0%Q ∧
  Optimized.algorithme_glouton [action_A; action_B; action_C] 0
    = Ok (Solution [] 0%Q 0%Q) ∧
  SacADosDynamique.algorithme_sac_a_dos [action_A; action_B; action_C] 0
    = Ok (Solution [] 0%Q 0%Q).
Proof.
  assert (Hv : forallb valide [action_A; action_B; action_C] = true)
    by reflexivity.
  assert (Hc : forallb classee [action_A; action_B; action_C] = true)
    by reflexivity.
  assert (Hl : forallb chargee [action_A; action_B; action_C] = true)
    by reflexivity.
  destruct (budget_zero _ Hv) as (H1 & H2 & _ & H4).
  split; [exact Hv|]. split; [exact Hc|]. split; [exact Hl|].
  split; [exact H1|]. split; [exact (H2 Hc) | exact (proj1 (H4 Hl))].
Defined.

(** C9, as the code has it.  No solver checks the budget: with a budget
    that is zero or negative and valid assets, each of them returns the
    solution with no asset, and raises nothing. *)
Theorem budget_negatif_sans_erreur (l : list action) (budget_max : Q) :
  forallb valide l = true → (budget_max <= 0)%Q →
  Bruteforce.trouver_meilleure_combinaison l budget_max = Solution [] 0%Q 0%Q ∧
  (forallb classee l = true →
   Optimized.algorithme_glouton l budget_max = Ok (Solution [] 0%Q 0%Q)) ∧
  (∃ l', AnalyseDatasets.algorithme_glouton l budget_max =
           Ok (l', Solution [] 0%Q 0%Q)) ∧
  (forallb chargee l = true →
   SacADosDynamique.algorithme_sac_a_dos l budget_max = Ok (Solution [] 0%Q 0%Q) ∧
   AnalyseDatasets.algorithme_dynamique l budget_max = Ok (Solution [] 0%Q 0%Q)).
Proof.
  intros Hl Hb. destruct (sans_budget l budget_max Hl Hb) as (H1 & H2 & H3 & H4).
  split; [exact H1|]. split; [exact H2|]. split; [eauto | exact H4].
Qed.

Lemma budget_negatif_sans_erreur_witness :
  forallb valide [action_A; action_B; action_C] = true ∧ (-1 <= 0)%Q ∧
  Bruteforce.trouver_meilleure_combinaison [action_A; action_B; action_C] (-1)
    = Solution [] 0%Q 0%Q.
Proof.
  assert (Hv : forallb valide [action_A; action_B; action_C] = true)
    by reflexivity.
  assert (Hb : (-1 <= 0)%Q) by (unfold Qle; simpl; lia).
  split; [exact Hv|]. split; [exact Hb|].
  exact (proj1 (budget_negatif_sans_erreur _ (-1) Hv Hb)).
Defined.

(** C9, as stated, fails: with budget -1 the three kinds of solver return
    a solution; none of them fails. *)
Lemma budget_negatif_contre_exemple :
  (-1 <= 0)%Q ∧
  Bruteforce.trouver_meilleure_combinaison [action_demi_centime] (-1)
    = Solution [] 0%Q 0%Q ∧
  Optimized.algorithme_glouton [action_demi_centime] (-1)
    = Ok (Solution [] 0%Q 0%Q) ∧
  SacADosDynamique.algorithme_sac_a_dos [action_demi_centime] (-1)
    = Ok (Solution [] 0%Q 0%Q) ∧
  ¬ ∃ e, SacADosDynamique.algorithme_sac_a_dos [action_demi_centime] (-1) = Err e.
Proof.
  split; [unfold Qle; simpl; lia|]. split; [reflexivity|].
  split; [reflexivity|]. split; [reflexivity|]. intros [e He]. discriminate He.
Qed.

(** ** Effects on the input *)





(** ** The comparison *)



(** ** Where the dynamic program departs from its contract *)

(** C1.  The dynamic program is documented as returning the optimal
    solution.  On one valid asset of cost 1 and profit 0.5 %, with budget
    1, it returns the solution with no asset, of profit 0, while the
    exhaustive solver returns the asset, of profit 0.005: the profit in
    cents, [int(0.005 * 100)], is 0. *)
Theorem dynamique_sous_optimal :
  forallb chargee [action_demi_centime] = true ∧ (0 < 1)%Q ∧
  SacADosDynamique.algorithme_sac_a_dos [action_demi_centime] 1
    = Ok (Solution [] 0%Q 0%Q) ∧
  actions (Bruteforce.trouver_meilleure_combinaison [action_demi_centime] 1)
    = [action_demi_centime] ∧
  (benefice_total (Bruteforce.trouver_meilleure_combinaison [action_demi_centime] 1)
   == 0.005)%Q ∧
  ¬ (0 == benefice_total
            (Bruteforce.trouver_meilleure_combinaison [action_demi_centime] 1))%Q.
Proof.
  split; [reflexivity|]. split; [reflexivity|]. split; [reflexivity|].
  split; [reflexivity|]. split; [reflexivity|]. discriminate.
Qed.

(** C2.  On one valid asset of cost 1.005 with budget 1, the dynamic
    program returns the asset: its cost in cents, [int(1.005 * 100)], is
    100, the budget in cents.  The total cost of the solution, 1.005, is
    above the budget. *)
Theorem dynamique_depasse_budget :
  forallb chargee [action_fraction] = true ∧ (0 < 1)%Q ∧
  ∃ sol,
    SacADosDynamique.algorithme_sac_a_dos [action_fraction] 1 = Ok sol ∧
    AnalyseDatasets.algorithme_dynamique [action_fraction] 1 = Ok sol ∧
    actions sol = [action_fraction] ∧
    (cout_total sol == 1.005)%Q ∧ (1 < cout_total sol)%Q.
Proof.
  split; [reflexivity|]. split; [reflexivity|]. eexists.
  split; [reflexivity|]. split; [reflexivity|]. split; [reflexivity|].
  split; reflexivity.
Qed.

(** C3.  On the asset of cost 1 and profit 0.5 %, with budget 1, the
    greedy solver of [analyse_datasets.py] returns the asset, of profit
    0.005, and the dynamic program of the same file the solution with no
    asset, of profit 0. *)
Theorem glouton_depasse_dynamique :
  forallb chargee [action_sans_ratio] = true ∧ (0 < 1)%Q ∧
  ∃ l' g d,
    AnalyseDatasets.algorithme_glouton [action_sans_ratio] 1 = Ok (l', g) ∧
    AnalyseDatasets.algorithme_dynamique [action_sans_ratio] 1 = Ok d ∧
    (benefice_total g == 0.005)%Q ∧ (benefice_total d == 0)%Q ∧
    (benefice_total d < benefice_total g)%Q.
Proof.
  split; [reflexivity|]. split; [reflexivity|]. eexists _, _, _.
  split; [reflexivity|]. split; [reflexivity|]. split; [reflexivity|].
  split; reflexivity.
Qed.

(** * Further properties of the programs *)

(** ** The table of the dynamic program *)

(** X1.  For assets of non-negative cost in cents, [creer_table_dynamique]
    ends without error, and the entry of row [i] and column [b] is the
    largest profit in cents of a selection of the first [i] assets whose
    cost in cents is at most [b]: no such selection has more, and one has
    exactly that. *)
Theorem table_programme_dynamique (acs : list action_centimes) (B : Z) :
  Forall (fun a => (0 ≤ cout_centimes a)%Z) acs →
  ∃ T, SacADosDynamique.creer_table_dynamique acs B = Ok T ∧
       length T = length acs + 1 ∧
       ∀ i b row v,
         T !! i = Some row → (0 ≤ b)%Z → row !! Z.to_nat b = Some v →
         (∀ s, s `sublist_of` take i acs → (cout_cents s ≤ b)%Z →
               (benefice_cents s ≤ v)%Z) ∧
         (∃ s, s `sublist_of` take i acs ∧ (cout_cents s ≤ b)%Z ∧
               benefice_cents s = v).
Proof.
  intros Hc. exists (table_de acs B).
  split; [by apply creer_table_dynamique_ok|].
  split; [unfold table_de; by rewrite length_fmap, length_seq|].
  intros i b row v Hrow Hb Hv.
  assert (Hi : i ≤ length acs).
  { apply lookup_lt_Some in Hrow. unfold table_de in Hrow.
    rewrite length_fmap, length_seq in Hrow. lia. }
  rewrite lookup_table_de in Hrow by done.
  assert (row = ligne acs B i) as -> by congruence.
  pose proof (lookup_lt_Some _ _ _ Hv) as Hlt. rewrite length_ligne in Hlt.
  apply list_lookup_total_correct in Hv as <-. split.
  - intros s Hs Hcs. apply ligne_majore; [done | done | lia | done | done].
  - apply ligne_atteinte; [done | done | lia].
Qed.

Lemma table_programme_dynamique_witness :
  Forall (fun a => (0 ≤ cout_centimes a)%Z)
    (en_centimes <$> [action_A; action_B; action_C]) ∧
  ∃ T, SacADosDynamique.creer_table_dynamique
         (en_centimes <$> [action_A; action_B; action_C]) 30000 = Ok T ∧
       length T = 4.
Proof.
  assert (H : Forall (fun a => (0 ≤ cout_centimes a)%Z)
                (en_centimes <$> [action_A; action_B; action_C])).
  { repeat constructor; vm_compute; discriminate. }
  split; [exact H|].
  destruct (table_programme_dynamique _ 30000 H) as (T & HT & Hlen & _).
  exists T. split; [exact HT | exact Hlen].
Defined.

(** ** What the dynamic program returns *)







(** ** The greedy solvers *)

Section GloutonComplet.






End GloutonComplet.







(** ** The exhaustive search *)

Section Denombrement.
Context {A : Type}.
Implicit Types (l : list A) (k m : nat).

Lemma somme_nulle (f : nat → nat) (ks : list nat) :
  Forall (fun k => f k = 0) ks → sum_list_with f ks = 0.
Proof. induction 1 as [|k ks Hk _ IH]; simpl; [done|]. by rewrite Hk, IH. Qed.

Lemma somme_somme (f g : nat → nat) (ks : list nat) :
  sum_list_with (fun k => f k + g k) ks =
  sum_list_with f ks + sum_list_with g ks.
Proof. induction ks as [|k ks IH]; simpl; [done|]. rewrite IH. lia. Qed.

Lemma somme_ext (f g : nat → nat) (ks : list nat) :
  (∀ k, f k = g k) → sum_list_with f ks = sum_list_with g ks.
Proof. intros H. induction ks as [|k ks IH]; simpl; [done|]. by rewrite H, IH. Qed.

Lemma somme_decalee (f : nat → nat) (j m : nat) :
  sum_list_with f (seq (S j) m) = sum_list_with (fun k => f (S k)) (seq j m).
Proof.
  revert j. induction m as [|m IH]; intros j; simpl; [done|]. by rewrite IH.
Qed.

Lemma combinations_total l m :
  length l < m →
  sum_list_with (fun k => length (Py.combinations l k)) (seq 0 m)
  = 2 ^ length l.
Proof.
  revert m. induction l as [|x l IH]; intros [|m] Hm; simpl in Hm; try lia.
  - cbn [seq sum_list_with]. rewrite somme_decalee, somme_nulle; [done|].
    by apply Forall_forall.
  - pose proof (IH m ltac:(lia)) as IH1. pose proof (IH (S m) ltac:(lia)) as IH2.
    cbn [seq sum_list_with] in IH2 |- *. rewrite somme_decalee in IH2 |- *.
    rewrite (somme_ext _ (fun k => length (Py.combinations l k)
                                  + length (Py.combinations l (S k)))).
    2:{ intros k. simpl. by rewrite length_app, length_fmap. }
    rewrite somme_somme, IH1.
    assert (length (Py.combinations l 0) = 1) as E0 by by destruct l.
    assert (length (Py.combinations (x :: l) 0) = 1) as -> by done.
    rewrite E0 in IH2. change (2 ^ length (x :: l)) with (2 * 2 ^ length l). lia.
Qed.

End Denombrement.

Section Compteur.
Variable budget_max : Q.

Lemma examiner_compte (s : Bruteforce.etat) (c : list action) :
  Bruteforce.nombre_total_combinaisons (Bruteforce.examiner budget_max s c)
  = S (Bruteforce.nombre_total_combinaisons s).
Proof.
  unfold Bruteforce.examiner.
  destruct (Bruteforce.calculer_benefice_total c) as [cc bc].
  destruct (Py.leb cc budget_max); [|done]. by destruct (Py.ltb _ bc).
Qed.

Lemma fold_examiner_compte (cs : list (list action)) (s : Bruteforce.etat) :
  Bruteforce.nombre_total_combinaisons
    (fold_left (Bruteforce.examiner budget_max) cs s)
  = Bruteforce.nombre_total_combinaisons s + length cs.
Proof.
  revert s. induction cs as [|c cs IH]; intros s; simpl; [lia|].
  rewrite IH, examiner_compte. lia.
Qed.

Lemma length_enumeration (l : list action) :
  length (Bruteforce.enumeration l) = 2 ^ length l - 1.
Proof.
  pose proof (combinations_total l (S (length l)) ltac:(lia)) as Htot.
  cbn [seq sum_list_with] in Htot.
  assert (Hlen : ∀ ks, length (ks ≫= (fun k => Py.combinations l k))
                 = sum_list_with (fun k => length (Py.combinations l k)) ks).
  { induction ks as [|k ks IH]; csimpl; [done|]. by rewrite length_app, IH. }
  unfold Bruteforce.enumeration. rewrite Hlen.
  assert (length (Py.combinations l 0) = 1) as E0 by by destruct l.
  rewrite E0 in Htot. lia.
Qed.

End Compteur.

(** X8.  The exhaustive search examines every non-empty selection of its
    input once: the number of combinations it counts, for [n] assets and
    any budget, is [2^n - 1]. *)
Theorem nombre_de_combinaisons (l : list action) (budget_max : Q) :
  Bruteforce.nombre_total_combinaisons (Bruteforce.parcourir l budget_max)
  = 2 ^ length l - 1 ∧
  ∀ c, c ∈ Bruteforce.enumeration l ↔ c `sublist_of` l ∧ c ≠ [].
Proof.
  split; [|intros c; apply elem_of_enumeration].
  rewrite parcourir_fold, fold_examiner_compte, length_enumeration. done.
Qed.

(** X9.  The profit of the solution of the exhaustive solver never
    decreases when the budget grows or when assets are added to the
    input. *)
Theorem exhaustif_croissant (l l' : list action) (b b' : Q) :
  (0 <= b)%Q → (b <= b')%Q → l `sublist_of` l' →
  (benefice_total (Bruteforce.trouver_meilleure_combinaison l b) <=
   benefice_total (Bruteforce.trouver_meilleure_combinaison l' b'))%Q.
Proof.
  intros Hb Hbb Hl.
  destruct (trouver_meilleure_combinaison_spec b l Hb) as (Hsub & Hev & Hf & _).
  destruct (trouver_meilleure_combinaison_spec b' l')
    as (_ & _ & _ & Hmax & _); [by eapply Qle_trans|].
  rewrite (evaluee_benefice _ Hev). apply Hmax.
  - by etrans.
  - unfold faisable in *. by eapply Qle_trans.
Qed.

Lemma exhaustif_croissant_witness :
  (0 <= 100)%Q ∧ (100 <= 300)%Q ∧
  [action_A; action_C] `sublist_of` [action_A; action_B; action_C] ∧
  (benefice_total
     (Bruteforce.trouver_meilleure_combinaison [action_A; action_C] 100) <=
   benefice_total
     (Bruteforce.trouver_meilleure_combinaison
        [action_A; action_B; action_C] 300))%Q.
Proof.
  assert (H1 : (0 <= 100)%Q) by (unfold Qle; simpl; lia).
  assert (H2 : (100 <= 300)%Q) by (unfold Qle; simpl; lia).
  assert (H3 : [action_A; action_C] `sublist_of` [action_A; action_B; action_C]).
  { apply sublist_skip, sublist_cons, sublist_skip, sublist_nil. }
  split; [exact H1|]. split; [exact H2|]. split; [exact H3|].
  exact (exhaustif_croissant _ _ 100 300 H1 H2 H3).
Defined.

(** ** The comparison *)

Section Comparaison.
Import AnalyseDatasets.

Lemma div_ok (a b : Q) : ¬ (b == 0)%Q → Py.div a b = Ok (a / b)%Q.
Proof.
  intros Hb. unfold Py.div. destruct (Qeq_bool b 0) eqn:E; [|done].
  by apply Qeq_bool_iff in E.
Qed.

Lemma div_zero (a b : Q) : (b == 0)%Q → Py.div a b = Err ZeroDivisionError.
Proof.
  intros Hb. unfold Py.div. apply Qeq_bool_iff in Hb. by rewrite Hb.
Qed.

(** The cases of [comparer_solutions]. *)
Lemma comparer_solutions_cas {A B}
    (algo : solution A) (sienna : solution B) :
  let d := (benefice_total algo - benefice_total sienna)%Q in
  (AnalyseDatasets.comparer_solutions algo sienna = Err ZeroDivisionError ↔
   (benefice_total sienna == 0)%Q ∧ ((0.01 < d)%Q ∨ (d < - 0.01)%Q)) ∧
  (∀ c, AnalyseDatasets.comparer_solutions algo sienna = Ok c →
     AnalyseDatasets.diff_benefice c = d ∧
     AnalyseDatasets.diff_cout c = (cout_total algo - cout_total sienna)%Q ∧
     AnalyseDatasets.diff_nombre c =
       (Z.of_nat (length (actions algo)) - Z.of_nat (length (actions sienna)))%Z ∧
     match AnalyseDatasets.le_verdict c with
     | AnalyseDatasets.AlgorithmeMeilleur x p =>
         (0.01 < d)%Q ∧ x = d ∧ p = (d / benefice_total sienna * 100)%Q
     | AnalyseDatasets.SiennaMeilleure x p =>
         (d < - 0.01)%Q ∧ x = Qabs d ∧
         p = (Qabs d / benefice_total sienna * 100)%Q
     | AnalyseDatasets.Equivalentes => (- 0.01 <= d)%Q ∧ (d <= 0.01)%Q
     end) ∧
  ((∃ c, AnalyseDatasets.comparer_solutions algo sienna = Ok c) ∨
   AnalyseDatasets.comparer_solutions algo sienna = Err ZeroDivisionError).
Proof.
  intros d. unfold AnalyseDatasets.comparer_solutions. fold d.
  destruct (Py.ltb 0.01 d) eqn:H1.
  - apply ltb_spec in H1.
    destruct (Qeq_dec (benefice_total sienna) 0) as [Hz|Hz].
    + rewrite (div_zero _ _ Hz). cbn [mbind resultat_bind].
      split; [|split; [done|by right]]. split; [auto|done].
    + rewrite (div_ok _ _ Hz). cbn [mbind resultat_bind].
      split; [|split; [|left; eauto]].
      * split; [done|]. by intros [? _].
      * intros c [= <-]. simpl. done.
  - apply ltb_false in H1. destruct (Py.ltb d (- 0.01)) eqn:H2.
    + apply ltb_spec in H2.
      destruct (Qeq_dec (benefice_total sienna) 0) as [Hz|Hz].
      * rewrite (div_zero _ _ Hz). cbn [mbind resultat_bind].
        split; [|split; [done|by right]]. split; [auto|done].
      * rewrite (div_ok _ _ Hz). cbn [mbind resultat_bind].
        split; [|split; [|left; eauto]].
        -- split; [done|]. by intros [? _].
        -- intros c [= <-]. simpl. done.
    + apply ltb_false in H2. cbn [mbind resultat_bind].
      split; [|split; [|left; eauto]].
      * split; [done|]. intros [_ [?|?]]; lra.
      * intros c [= <-]. simpl. done.
Qed.

End Comparaison.


(** X11.  The verdict is consistent when the two solutions are exchanged:
    if the first is found better than the second, the second is found
    worse than the first, and two solutions found equivalent are found
    equivalent in the other order too. *)
Theorem comparer_solutions_echange {A B}
    (algo : solution A) (sienna : solution B) (c c' : AnalyseDatasets.comparaison) :
  AnalyseDatasets.comparer_solutions algo sienna = Ok c →
  AnalyseDatasets.comparer_solutions sienna algo = Ok c' →
  match AnalyseDatasets.le_verdict c, AnalyseDatasets.le_verdict c' with
  | AnalyseDatasets.AlgorithmeMeilleur x _, AnalyseDatasets.SiennaMeilleure y _
  | AnalyseDatasets.SiennaMeilleure x _, AnalyseDatasets.AlgorithmeMeilleur y _ =>
      (Qabs x == Qabs y)%Q
  | AnalyseDatasets.Equivalentes, AnalyseDatasets.Equivalentes => True
  | _, _ => False
  end.
Proof.
  intros Hc Hc'.
  destruct (comparer_solutions_cas algo sienna) as (_ & H1 & _).
  destruct (comparer_solutions_cas sienna algo) as (_ & H2 & _).
  destruct (H1 c Hc) as (_ & _ & _ & Hv). destruct (H2 c' Hc') as (_ & _ & _ & Hv').
  set (d := (benefice_total algo - benefice_total sienna)%Q) in *.
  set (d' := (benefice_total sienna - benefice_total algo)%Q) in *.
  assert (Hd : (d' == - d)%Q) by (unfold d, d'; ring).
  destruct (AnalyseDatasets.le_verdict c) as [x p|x p|];
    destruct (AnalyseDatasets.le_verdict c') as [y q|y q|].
  - destruct Hv as (Hv & _), Hv' as (Hv' & _). lra.
  - destruct Hv as (_ & -> & _), Hv' as (_ & -> & _).
    rewrite (Qabs_pos (Qabs d')) by apply Qabs_nonneg.
    rewrite Hd. symmetry. apply Qabs_opp.
  - destruct Hv as (Hv & _), Hv' as (Hv' & Hv''). lra.
  - destruct Hv as (_ & -> & _), Hv' as (_ & -> & _).
    rewrite (Qabs_pos (Qabs d)) by apply Qabs_nonneg.
    rewrite Hd. symmetry. apply Qabs_opp.
  - destruct Hv as (Hv & _), Hv' as (Hv' & _). lra.
  - destruct Hv as (Hv & _), Hv' as (Hv' & Hv''). lra.
  - destruct Hv as (Hv & Hvv), Hv' as (Hv' & _). lra.
  - destruct Hv as (Hv & Hvv), Hv' as (Hv' & _). lra.
  - done.
Qed.

Lemma comparer_solutions_echange_witness :
  ∃ c c',
    AnalyseDatasets.comparer_solutions
      (Solution [action_A] 400 200) AnalyseDatasets.obtenir_choix_sienna_dataset1
      = Ok c ∧
    AnalyseDatasets.comparer_solutions
      AnalyseDatasets.obtenir_choix_sienna_dataset1 (Solution [action_A] 400 200)
      = Ok c' ∧
    match AnalyseDatasets.le_verdict c, AnalyseDatasets.le_verdict c' with
    | AnalyseDatasets.AlgorithmeMeilleur x _, AnalyseDatasets.SiennaMeilleure y _
    | AnalyseDatasets.SiennaMeilleure x _, AnalyseDatasets.AlgorithmeMeilleur y _ =>
        (Qabs x == Qabs y)%Q
    | AnalyseDatasets.Equivalentes, AnalyseDatasets.Equivalentes => True
    | _, _ => False
    end.
Proof.
  eexists _, _. split; [reflexivity|]. split; [reflexivity|].
  apply (comparer_solutions_echange (Solution [action_A] 400 200)
           AnalyseDatasets.obtenir_choix_sienna_dataset1); reflexivity.
Defined.

(** ** Missing keys and zero costs *)

Section Erreurs.

(** A list comprehension whose function can only raise [e] raises [e] as
    soon as it raises on one element. *)
Lemma map_err {A B} (f : A → resultat B) (e : erreur) (l : list A) :
  Forall (fun a => (∃ b, f a = Ok b) ∨ f a = Err e) l →
  Exists (fun a => f a = Err e) l →
  Py.map_ f l = Err e.
Proof.
  induction 1 as [|a l Ha Hl IH]; intros Hex; [by apply Exists_nil in Hex|].
  simpl. destruct Ha as [[b Hb]| Ha]; [|by rewrite Ha].
  rewrite Hb. cbn [mbind resultat_bind].
  apply Exists_cons in Hex as [Hex|Hex]; [congruence|].
  by rewrite (IH Hex).
Qed.

Lemma for_err {A S} (body : S → A → resultat S) (e : erreur) (l : list A) (s : S) :
  (∀ s a, (∃ s', body s a = Ok s') ∨ body s a = Err e) →
  Exists (fun a => ∀ s, body s a = Err e) l →
  Py.for_ l body s = Err e.
Proof.
  intros Hb Hex. revert s. induction Hex as [a l Ha|a l Hex IH]; intros s; simpl.
  - by rewrite Ha.
  - destruct (Hb s a) as [[s' ->]| ->]; [|done]. cbn [mbind resultat_bind]. apply IH.
Qed.

Lemma convertir_cle_manquante (l : list action) :
  Exists (fun a => benefice_euros a = None) l →
  SacADosDynamique.convertir_actions_en_centimes l
  = Err (KeyError "benefice_euros").
Proof.
  intros Hex. unfold SacADosDynamique.convertir_actions_en_centimes.
  apply for_err.
  - intros s a. destruct (benefice_euros a); simpl; eauto.
  - eapply Exists_impl; [exact Hex|]. intros a Ha s. by rewrite Ha.
Qed.

End Erreurs.

(** X12.  The greedy solver of [optimized.py] reads the key [ratio] of every
    asset before it selects any: for any budget it returns a solution when
    every asset carries the key, and raises [KeyError] on [ratio] when one
    asset does not, even an asset that would not be selected. *)
Theorem glouton_cle_ratio (l : list action) (budget_max : Q) :
  (Forall (fun a => is_Some (ratio a)) l →
   ∃ sol, Optimized.algorithme_glouton l budget_max = Ok sol) ∧
  (Exists (fun a => ratio a = None) l →
   Optimized.algorithme_glouton l budget_max = Err (KeyError "ratio")).
Proof.
  split.
  - intros Hl. unfold Optimized.algorithme_glouton.
    destruct (sorted_reverse_ok (fun a => Py.cle "ratio" (ratio a))
                (fun a => default 0%Q (ratio a)) l) as (l' & -> & _).
    { eapply Forall_impl; [exact Hl|]. by intros a [r ->]. }
    cbn [mbind resultat_bind].
    destruct (fold_left _ _ _) as [sel rest]. eauto.
  - intros Hex. unfold Optimized.algorithme_glouton, Py.sorted_reverse.
    rewrite (map_err _ (KeyError "ratio") l); [done| |].
    + apply Forall_forall. intros a _. destruct (ratio a); simpl; eauto.
    + eapply Exists_impl; [exact Hex|]. intros a Ha. by rewrite Ha.
Qed.

Lemma glouton_cle_ratio_witness :
  Exists (fun a => ratio a = None) [action_A; action_sans_ratio] ∧
  Optimized.algorithme_glouton [action_A; action_sans_ratio] 0
  = Err (KeyError "ratio").
Proof.
  assert (H : Exists (fun a => ratio a = None) [action_A; action_sans_ratio]).
  { apply Exists_cons_tl, Exists_cons_hd. reflexivity. }
  split; [exact H|]. exact (proj2 (glouton_cle_ratio _ 0) H).
Defined.

(** X13.  Both dynamic programs convert every asset to cents before they
    build the table: whatever the budget and the other assets, they raise
    [KeyError] on [benefice_euros] when one asset does not carry the key. *)
Theorem dynamique_cle_benefice (l : list action) (budget_max : Q) :
  Exists (fun a => benefice_euros a = None) l →
  SacADosDynamique.algorithme_sac_a_dos l budget_max
    = Err (KeyError "benefice_euros") ∧
  AnalyseDatasets.algorithme_dynamique l budget_max
    = Err (KeyError "benefice_euros").
Proof.
  intros Hex. rewrite algorithme_dynamique_eq.
  unfold SacADosDynamique.algorithme_sac_a_dos.
  by rewrite (convertir_cle_manquante l Hex).
Qed.

Lemma dynamique_cle_benefice_witness :
  Exists (fun a => benefice_euros a = None)
    [action_A; Action "F" 1 1 None None] ∧
  SacADosDynamique.algorithme_sac_a_dos [action_A; Action "F" 1 1 None None] 300
    = Err (KeyError "benefice_euros").
Proof.
  assert (H : Exists (fun a => benefice_euros a = None)
                [action_A; Action "F" 1 1 None None]).
  { apply Exists_cons_tl, Exists_cons_hd. reflexivity. }
  split; [exact H|]. exact (proj1 (dynamique_cle_benefice _ 300 H)).
Defined.

(** X14.  The greedy solver of [analyse_datasets.py] divides by the cost of
    every asset before it selects any: it raises [ZeroDivisionError] when
    one asset has cost 0, whatever the budget.  When no cost is 0 and
    every asset carries [benefice_euros] it returns a solution, for any
    budget and any sign of the costs. *)
Theorem glouton_cout_nul (l : list action) (budget_max : Q) :
  (Exists (fun a => (cout a == 0)%Q) l →
   AnalyseDatasets.algorithme_glouton l budget_max = Err ZeroDivisionError) ∧
  (Forall (fun a => ¬ (cout a == 0)%Q) l →
   Forall (fun a => is_Some (benefice_euros a)) l →
   ∃ sol, AnalyseDatasets.algorithme_glouton l budget_max
          = Ok (avec_ratio <$> l, sol)).
Proof.
  split.
  - intros Hex. unfold AnalyseDatasets.algorithme_glouton.
    rewrite (map_err _ ZeroDivisionError l); [done| |].
    + apply Forall_forall. intros a _. unfold AnalyseDatasets.calculer_ratio, Py.div.
      destruct (Qeq_bool (cout a) 0); simpl; eauto.
    + eapply Exists_impl; [exact Hex|]. intros a Ha.
      unfold AnalyseDatasets.calculer_ratio, Py.div.
      apply Qeq_bool_iff in Ha. by rewrite Ha.
  - intros Hnz Hbe. unfold AnalyseDatasets.algorithme_glouton.
    rewrite (map_ok AnalyseDatasets.calculer_ratio avec_ratio l).
    2:{ eapply Forall_impl; [exact Hnz|]. intros a Ha.
        unfold AnalyseDatasets.calculer_ratio, Py.div.
        destruct (Qeq_bool (cout a) 0) eqn:E; [|done].
        by apply Qeq_bool_iff in E. }
    cbn [mbind resultat_bind].
    destruct (sorted_reverse_ok (fun a => Py.cle "ratio" (ratio a))
                (fun a => (benefice_pct a / cout a)%Q) (avec_ratio <$> l))
      as (l' & -> & Hperm).
    { rewrite Forall_fmap. by apply Forall_true. }
    cbn [mbind resultat_bind].
    destruct (fold_left _ _ _) as [sel rest] eqn:Hfold.
    assert (Hsel : sel ⊆ l').
    { assert (Hgen : ∀ xs s0 r0 s1 r1,
                fold_left AnalyseDatasets.selectionner xs (s0, r0) = (s1, r1) →
                ∀ a, a ∈ s1 → a ∈ s0 ∨ a ∈ xs).
      { induction xs as [|x xs IH]; intros s0 r0 s1 r1 Hf a Ha; simpl in Hf.
        - injection Hf as <- <-. by left.
        - destruct (Py.leb (cout x) r0).
          + destruct (IH _ _ _ _ Hf a Ha) as [Hin|?]; [|right; by right].
            apply elem_of_app in Hin as [?|Hin]; [by left|].
            apply list_elem_of_singleton in Hin as ->. right. by left.
          + destruct (IH _ _ _ _ Hf a Ha) as [?|?]; [by left|]. right. by right. }
      intros a Ha. destruct (Hgen _ _ _ _ _ Hfold a Ha) as [?%elem_of_nil|?]; done. }
    change (AnalyseDatasets.calculer_solution sel)
      with (SacADosDynamique.calculer_solution sel).
    rewrite (calculer_solution_ok sel); [cbn [mbind resultat_bind]; eauto|].
    apply Forall_forall. intros a Ha. apply Hsel in Ha. rewrite Hperm in Ha.
    apply list_elem_of_fmap in Ha as (a0 & -> & Ha0).
    rewrite Forall_forall in Hbe. exact (Hbe a0 Ha0).
Qed.

Lemma glouton_cout_nul_witness :
  Exists (fun a => (cout a == 0)%Q) [action_A; Action "G" 0 5 (Some 0%Q) None] ∧
  AnalyseDatasets.algorithme_glouton
    [action_A; Action "G" 0 5 (Some 0%Q) None] 300 = Err ZeroDivisionError.
Proof.
  assert (H : Exists (fun a => (cout a == 0)%Q)
                [action_A; Action "G" 0 5 (Some 0%Q) None]).
  { apply Exists_cons_tl, Exists_cons_hd. reflexivity. }
  split; [exact H|]. exact (proj1 (glouton_cout_nul _ 300) H).
Defined.

(** ** Loading *)

Section Chargement.
Variable py : builtins.







End Chargement.

Section Programmes.
Variable py : builtins.





End Programmes.



(** ** The programs *)

Section Mains.


(** A budget that no asset fits: the search keeps the empty solution. *)
Lemma trouver_rien (l : list action) (budget_max : Q) :
  Forall (fun a => valide a = true ∧ (budget_max < cout a)%Q) l →
  Bruteforce.trouver_meilleure_combinaison l budget_max = solution_vide.
Proof.
  intros Hl. unfold Bruteforce.trouver_meilleure_combinaison.
  rewrite parcourir_fold.
  destruct (fold_examiner budget_max (Bruteforce.enumeration l)
              (Bruteforce.Etat (Solution [] 0%Q 0%Q) 0))
    as [(Hr & _) | (pre & post & Hcs & _ & Hfr & _)]; [done|].
  exfalso. set (r := Bruteforce.meilleure_solution _) in *.
  assert (Hin : actions r ∈ Bruteforce.enumeration l).
  { rewrite Hcs. apply elem_of_app. right. by left. }
  apply elem_of_enumeration in Hin as [Hsub Hne].
  pose proof (sublist_Forall _ _ _ Hsub Hl) as Hr.
  unfold faisable in Hfr. rewrite cout_de_sum in Hfr.
  destruct (actions r) as [|a rest]; [done|].
  apply Forall_cons in Hr as [[_ Ha] Hrest]. rewrite sum_cons in Hfr.
  assert (0 <= Py.sum cout rest)%Q; [|lra].
  destruct rest as [|a' rest']; [unfold Py.sum; simpl; lra|].
  apply Qlt_le_weak, sum_positive; [|done].
  eapply Forall_impl; [exact Hrest|]. by intros ? [[? _]%valide_spec _].
Qed.

End Mains.

(** X16.  [afficher_resultat] of [bruteforce.py] divides the profit by the
    total cost without a guard: it raises [ZeroDivisionError] exactly when
    the total cost of the solution is zero.  So the program of
    [bruteforce.py] ends in [ZeroDivisionError] when the file has no row,
    and when every asset is valid and costs more than the budget of 500:
    the search then returns the empty solution. *)
Theorem bruteforce_division_par_zero (py : builtins)
    (fichier : list (gmap string string)) (l : list action) :
  BruteforceFichier.lire_fichier_actions py fichier = Retour l →
  (∀ sol, BruteforceFichier.afficher_resultat sol = Err ZeroDivisionError ↔
          (cout_total sol == 0)%Q) ∧
  (Forall (fun a => valide a = true ∧ (500 < cout a)%Q) l →
   BruteforceFichier.main py fichier = Leve (Erreur ZeroDivisionError)) ∧
  (¬ (cout_total (Bruteforce.trouver_meilleure_combinaison l 500) == 0)%Q →
   ∃ aff, BruteforceFichier.main py fichier = Retour aff ∧
          (BruteforceFichier.cout_affiche aff <= 500)%Q).
Proof.
  intros Hl. split; [|split].
  - intros sol. unfold BruteforceFichier.afficher_resultat.
    destruct (Qeq_dec (cout_total sol) 0) as [Hz|Hz].
    + by rewrite (div_zero _ _ Hz).
    + rewrite (div_ok _ _ Hz). by cbn [mbind resultat_bind].
  - intros Hall. unfold BruteforceFichier.main. rewrite Hl.
    cbn [mbind issue_bind]. rewrite (trouver_rien l 500 Hall).
    reflexivity.
  - intros Hnz. unfold BruteforceFichier.main. rewrite Hl.
    cbn [mbind issue_bind]. unfold BruteforceFichier.afficher_resultat.
    rewrite (div_ok _ _ Hnz). cbn [mbind resultat_bind PyTexte.lever].
    eexists. split; [done|]. cbn [BruteforceFichier.cout_affiche].
    destruct (trouver_meilleure_combinaison_spec 500 l) as (_ & Hev & Hf & _).
    { unfold Qle; simpl; lia. }
    by rewrite (evaluee_cout _ Hev).
Qed.

Lemma bruteforce_division_par_zero_witness :
  ∃ l, BruteforceFichier.lire_fichier_actions python_exemple fichier_trop_cher
       = Retour l ∧
       Forall (fun a => valide a = true ∧ (500 < cout a)%Q) l ∧
       BruteforceFichier.main python_exemple fichier_trop_cher
       = Leve (Erreur ZeroDivisionError).
Proof.
  eexists. split; [vm_compute; reflexivity|].
  assert (H : Forall (fun a => valide a = true ∧ (500 < cout a)%Q)
                [Action "Action-1" 600 5 None None;
                 Action "Action-2" 501 10 None None]).
  { repeat constructor. }
  split; [exact H|].
  exact (proj1 (proj2 (bruteforce_division_par_zero python_exemple
                         fichier_trop_cher _ eq_refl)) H).
Defined.





(** ** The datasets *)

Section Datasets.
Variable py : builtins.
Import AnalyseDatasetsFichier.







End Datasets.



(** X20.  [creer_action_depuis_dataset] rejects a row exactly when its name
    is empty after [strip], or its price or its profit is not a number or
    is not positive; a column that is absent counts as an empty name or as
    the number 0.  A row that is accepted gives the asset with the
    stripped name, the price, the profit and the profit in euros
    [price * profit / 100]. *)
Theorem creer_action_depuis_dataset_cas (py : builtins)
    (ligne : gmap string string) :
  let nom_lu := strip py (default ""%string (ligne !! "name"%string)) in
  let prix := AnalyseDatasetsFichier.nombre py "price" ligne in
  let profit := AnalyseDatasetsFichier.nombre py "profit" ligne in
  (AnalyseDatasetsFichier.creer_action_depuis_dataset py ligne = None ↔
   nom_lu = ""%string ∨
   (∀ x, prix = Some x → (x <= 0)%Q) ∨
   (∀ y, profit = Some y → (y <= 0)%Q)) ∧
  (∀ a, AnalyseDatasetsFichier.creer_action_depuis_dataset py ligne = Some a →
     ∃ x y, prix = Some x ∧ profit = Some y ∧
       a = Action nom_lu x y (Some (x * y / 100)%Q) None).
Proof.
  intros nom_lu prix profit.
  unfold AnalyseDatasetsFichier.creer_action_depuis_dataset.
  fold nom_lu prix profit.
  destruct prix as [x|]; cbn [mbind option_bind].
  2:{ split; [|done]. split; [|done]. intros _. right. left. done. }
  destruct profit as [y|]; cbn [mbind option_bind].
  2:{ split; [|done]. split; [|done]. intros _. right. right. done. }
  destruct (String.eqb nom_lu "") eqn:Hn; cbn [orb].
  { apply String.eqb_eq in Hn. split; [|done]. split; [auto|done]. }
  apply String.eqb_neq in Hn.
  destruct (Py.leb x 0) eqn:Hx; cbn [orb].
  { apply leb_spec in Hx. split; [|done]. split; [|done].
    intros _. right. left. by intros ? [= <-]. }
  apply leb_false in Hx.
  destruct (Py.leb y 0) eqn:Hy.
  { apply leb_spec in Hy. split; [|done]. split; [|done].
    intros _. right. right. by intros ? [= <-]. }
  apply leb_false in Hy. split.
  - split; [done|]. intros [?|[H|H]]; [done| |].
    + specialize (H x eq_refl). lra.
    + specialize (H y eq_refl). lra.
  - intros a [= <-]. eauto.
Qed.

(** ** Statistics *)

Section Statistiques.
Context {A : Type} (f : A → Q).


Lemma max_spec (a : A) (l : list A) :
  Forall (fun x => (f x <= PyTexte.max_ f a l)%Q) (a :: l) ∧
  ∃ x, x ∈ a :: l ∧ PyTexte.max_ f a l = f x.
Proof.
  unfold PyTexte.max_.
  assert (H : ∀ (pre : list A) (m : Q),
    Forall (fun x => (f x <= m)%Q) pre → (∃ x, x ∈ pre ∧ m = f x) →
    let r := fold_left (fun m x => if Py.ltb m (f x) then f x else m) l m in
    Forall (fun x => (f x <= r)%Q) (pre ++ l) ∧ ∃ x, x ∈ pre ++ l ∧ r = f x).
  { induction l as [|y l IH]; intros pre m Hm Hx; simpl.
    - by rewrite app_nil_r.
    - replace (pre ++ y :: l) with ((pre ++ [y]) ++ l) by by rewrite <- app_assoc.
      apply IH.
      + destruct (Py.ltb m (f y)) eqn:E.
        * apply ltb_spec in E. apply Forall_app. split.
          -- eapply Forall_impl; [exact Hm|]. simpl. intros; lra.
          -- constructor; [lra|constructor].
        * apply ltb_false in E. apply Forall_app. split; [done|].
          constructor; [done|constructor].
      + destruct (Py.ltb m (f y)) eqn:E.
        * exists y. split; [|done]. apply elem_of_app. right. by left.
        * destruct Hx as (x & Hx & ->). exists x. split; [|done].
          apply elem_of_app. by left. }
  apply (H [a] (f a)).
  - constructor; [lra|constructor].
  - exists a. split; [by left|done].
Qed.



End Statistiques.


(** ** The analysis of a dataset *)

Section Analyse.
Variable py : builtins.
Import AnalyseDatasetsFichier.







End Analyse.




(** ** The loader of [bruteforce.py] and the displays *)

Section Affichages.


Lemma map_cle {A B} (cle : string) (get : A → option Q) (g : A → Q → B)
    (l : list A) :
  match Py.map_ (fun a => r ← Py.cle cle (get a); Ok (g a r)) l with
  | Ok ls =>
      Forall (fun a => is_Some (get a)) l ∧ length ls = length l
  | Err e => e = KeyError cle ∧ Exists (fun a => get a = None) l
  end.
Proof.
  induction l as [|a l IH]; simpl; [done|].
  destruct (get a) as [r|] eqn:Ha; cbn [Py.cle mbind resultat_bind].
  - destruct (Py.map_ _ l) as [ls|e]; cbn [mbind resultat_bind].
    + destruct IH as [IH1 IH2]. split; [constructor; eauto|simpl; lia].
    + destruct IH as [-> IH]. split; [done|by right].
  - split; [done|by left].
Qed.

End Affichages.


(** X25.  The displays of [optimized.py] and [sac_a_dos_dynamique.py] guard
    their division: they print the yield exactly when the total cost is
    positive and never raise [ZeroDivisionError].  They return, with one
    line per asset, exactly when every asset of the solution carries the
    key they print ([ratio], [benefice_euros]), and raise [KeyError] on
    that key otherwise. *)
Theorem afficher_resultat_garde (sol : solution action) :
  match OptimizedFichier.afficher_resultat sol with
  | Ok aff =>
      Forall (fun a => is_Some (ratio a)) (actions sol) ∧
      length (OptimizedFichier.lignes aff) = length (actions sol) ∧
      (is_Some (OptimizedFichier.rentabilite aff) ↔ (0 < cout_total sol)%Q)
  | Err e =>
      e = KeyError "ratio" ∧ Exists (fun a => ratio a = None) (actions sol)
  end ∧
  match SacADosDynamiqueFichier.afficher_resultat sol with
  | Ok aff =>
      Forall (fun a => is_Some (benefice_euros a)) (actions sol) ∧
      length (SacADosDynamiqueFichier.lignes aff) = length (actions sol) ∧
      (is_Some (SacADosDynamiqueFichier.rentabilite aff) ↔ (0 < cout_total sol)%Q)
  | Err e =>
      e = KeyError "benefice_euros" ∧
      Exists (fun a => benefice_euros a = None) (actions sol)
  end.
Proof.
  assert (Hr : ∀ x : Q,
    is_Some (if Py.ltb 0 (cout_total sol) then Some x else None) ↔
    (0 < cout_total sol)%Q).
  { intros x. destruct (Py.ltb 0 (cout_total sol)) eqn:E.
    - apply ltb_spec in E. split; [done|eauto].
    - apply ltb_false in E. split; [by intros [? ?]|lra]. }
  split.
  - unfold OptimizedFichier.afficher_resultat.
    pose proof (map_cle "ratio" ratio
      (fun a r => (nom a, cout a, benefice_pct a,
                   (cout a * benefice_pct a / 100)%Q, r)) (actions sol)) as H.
    cbv zeta.
    destruct (Py.map_ _ (actions sol)) as [ls|e]; cbn [mbind resultat_bind];
      [|done].
    destruct H as [H1 H2]. cbn [OptimizedFichier.lignes OptimizedFichier.rentabilite].
    split; [done|]. split; [done|]. apply Hr.
  - unfold SacADosDynamiqueFichier.afficher_resultat.
    pose proof (map_cle "benefice_euros" benefice_euros
      (fun a be => (nom a, cout a, benefice_pct a, be)) (actions sol)) as H.
    cbv zeta.
    destruct (Py.map_ _ (actions sol)) as [ls|e]; cbn [mbind resultat_bind];
      [|done].
    destruct H as [H1 H2].
    cbn [SacADosDynamiqueFichier.lignes SacADosDynamiqueFichier.rentabilite].
    split; [done|]. split; [done|]. apply Hr.
Qed.
